(** * LiteX: the Lattice Oxide toolchain backend (Yosys, nextpnr-nexus, prjoxide)

    A shallow embedding of [litex/build/lattice/oxide.py] and the properties
    of its script generation and of its process runner.

    Layout:
    - [Py]: the Python builtins the backend relies on: [str.format],
      [str.join], [in], [str.count], [str.endswith], [str(int)], and
      exceptions;
    - the host (platform name, search path, child processes, file writes)
      and the monad of the methods that use it;
    - the toolchain object, its templates and its methods, named as in the
      source;
    - [PyFacts]: lemmas about the builtins; then the properties of the
      backend, method by method. *)

From Stdlib Require Import ZArith List Ascii String DecimalString Lia Bool.
From Stdlib Require DecimalPos DecimalZ.
From stdpp Require Import base strings gmap.

(* ===================================================================== *)
(** * Python builtins                                                     *)
(* ===================================================================== *)

Module Py.

(** ** Characters and small string helpers *)

Definition nl : string := String "010"%char EmptyString.
Definition dquote : string := String "034"%char EmptyString.

Definition snoc (s : string) (c : ascii) : string :=
  s +:+ String c EmptyString.

Fixpoint str_in_char (c : ascii) (s : string) : bool :=
  match s with
  | EmptyString => false
  | String d r => Ascii.eqb c d || str_in_char c r
  end.

Definition is_digit (c : ascii) : bool := str_in_char c "0123456789".

(** [pat in s] *)
Fixpoint str_contains (s pat : string) : bool :=
  String.prefix pat s ||
  match s with
  | EmptyString => false
  | String _ r => str_contains r pat
  end.

(** Number of positions of [s] at which [pat] occurs. For a pattern no
    proper prefix of which is also a suffix of it (all the flags of this
    backend) this is [s.count(pat)]. *)
Fixpoint str_count (s pat : string) : nat :=
  (if String.prefix pat s then 1 else 0) +
  match s with
  | EmptyString => 0
  | String _ r => str_count r pat
  end.

(** [s.startswith(p)] and [s.endswith(suf)] *)
Definition str_startswith (s p : string) : bool := String.prefix p s.

Fixpoint str_endswith (s suf : string) : bool :=
  String.eqb s suf ||
  match s with
  | EmptyString => false
  | String _ r => str_endswith r suf
  end.

Fixpoint last_char (s : string) : option ascii :=
  match s with
  | EmptyString => None
  | String c EmptyString => Some c
  | String _ r => last_char r
  end.

(** [sep.join(ls)] *)
Definition join (sep : string) (ls : list string) : string :=
  String.concat sep ls.

(** [s.split(sep)] for a one-character separator. *)
Fixpoint split_go (sep : ascii) (s cur : string) : list string :=
  match s with
  | EmptyString => [cur]
  | String c r =>
      if Ascii.eqb c sep then cur :: split_go sep r EmptyString
      else split_go sep r (snoc cur c)
  end.
Definition split (sep : ascii) (s : string) : list string :=
  split_go sep s EmptyString.

(** ** Values and [str()] *)

Inductive value :=
| VStr (s : string)
| VInt (z : Z).

Definition str (v : value) : string :=
  match v with
  | VStr s => s
  | VInt z => NilZero.string_of_int (Z.to_int z)
  end.

(** ** Exceptions *)

Inductive exc_class := OSError | KeyError | ValueError | IndexError.

Record exc := Exc { exc_type : exc_class; exc_msg : string }.

Inductive result (A : Type) :=
| Ok (a : A)
| Raise (e : exc).
Arguments Ok {A} a.
Arguments Raise {A} e.

(** ** [str.format]

    The format string is scanned once, left to right: literal text with
    the escapes [{{] and [}}], and replacement fields [{name}]. A field
    name that is empty or a number addresses the positional arguments, any
    other name the keyword arguments.

    Only plain replacement fields are interpreted. A field with a
    conversion ([!r]), a format specification ([:>8]) or an attribute or
    index access ([a.b], [a[0]]) is not: the whole text between the braces
    is taken as a keyword name, so that [format] raises [KeyError] where
    [str.format] looks up [a] and renders it. [plain_template] holds of the
    format strings without such fields, on which [format] is [str.format];
    these are all the format strings of the backend, and a property of the
    backend that depends on what [format] makes of another format string
    is stated of plain ones only. *)

Inductive segment :=
| Lit (s : string)
| Field (name : string).

Inductive pmode :=
| Text
| Open
| InField (name : string)
| Close.

Definition flush (lit : string) (acc : list segment) : list segment :=
  match lit with
  | EmptyString => acc
  | _ => Lit lit :: acc
  end.

Definition single_open : exc :=
  Exc ValueError "Single '{' encountered in format string".
Definition single_close : exc :=
  Exc ValueError "Single '}' encountered in format string".
Definition missing_close : exc :=
  Exc ValueError "expected '}' before end of string".
Definition nested_open : exc :=
  Exc ValueError "unexpected '{' in field name".

(** The segments scanned before the first syntax error, and that error. *)
Fixpoint parse_go (s : string) (m : pmode) (lit : string)
    (acc : list segment) : list segment * option exc :=
  match s with
  | EmptyString =>
      match m with
      | Text => (rev (flush lit acc), None)
      | Open => (rev (flush lit acc), Some single_open)
      | InField _ => (rev acc, Some missing_close)
      | Close => (rev (flush lit acc), Some single_close)
      end
  | String c r =>
      match m with
      | Text =>
          if Ascii.eqb c "{" then parse_go r Open lit acc
          else if Ascii.eqb c "}" then parse_go r Close lit acc
          else parse_go r Text (snoc lit c) acc
      | Open =>
          if Ascii.eqb c "{" then parse_go r Text (snoc lit "{") acc
          else if Ascii.eqb c "}" then
            parse_go r Text EmptyString (Field EmptyString :: flush lit acc)
          else parse_go r (InField (String c EmptyString)) EmptyString
                 (flush lit acc)
      | InField n =>
          if Ascii.eqb c "}" then parse_go r Text EmptyString (Field n :: acc)
          else if Ascii.eqb c "{" then (rev acc, Some nested_open)
          else parse_go r (InField (snoc n c)) EmptyString acc
      | Close =>
          if Ascii.eqb c "}" then parse_go r Text (snoc lit "}") acc
          else (rev (flush lit acc), Some single_close)
      end
  end.

Definition parse (tpl : string) : list segment * option exc :=
  parse_go tpl Text EmptyString [].

Definition field_names (segs : list segment) : list string :=
  flat_map (fun sg => match sg with Lit _ => [] | Field n => [n] end) segs.

Definition plain_name (n : string) : bool :=
  negb (str_in_char "!" n || str_in_char ":" n ||
        str_in_char "." n || str_in_char "[" n).

Definition plain_template (tpl : string) : bool :=
  forallb plain_name (field_names (fst (parse tpl))).

Definition digit_of (c : ascii) : option nat :=
  let n := nat_of_ascii c in
  if (48 <=? n)%nat && (n <=? 57)%nat then Some (n - 48)%nat else None.

Fixpoint index_go (s : string) (acc : nat) : option nat :=
  match s with
  | EmptyString => Some acc
  | String c r =>
      match digit_of c with
      | Some d => index_go r (10 * acc + d)%nat
      | None => None
      end
  end.

(** The positional index a field name denotes, if it is a number. *)
Definition field_index (name : string) : option nat :=
  match name with
  | EmptyString => None
  | _ => index_go name 0%nat
  end.

Inductive numbering :=
| NumInit
| NumAuto (next : nat)
| NumManual.

Definition auto_to_manual : exc :=
  Exc ValueError
    "cannot switch from automatic field numbering to manual field specification".
Definition manual_to_auto : exc :=
  Exc ValueError
    "cannot switch from manual field specification to automatic field numbering".
Definition index_error (i : nat) : exc :=
  Exc IndexError
    ("Replacement index " +:+ NilZero.string_of_uint (Nat.to_uint i) +:+
     " out of range for positional args tuple").

Definition positional (args : list value) (i : nat) : result value :=
  match args !! i with
  | Some v => Ok v
  | None => Raise (index_error i)
  end.

(** The value of one replacement field and the numbering state after it. *)
Definition field_value (name : string) (args : list value)
    (kw : gmap string value) (st : numbering) : result (value * numbering) :=
  match name with
  | EmptyString =>
      match st with
      | NumManual => Raise manual_to_auto
      | NumInit =>
          match positional args 0 with
          | Ok v => Ok (v, NumAuto 1)
          | Raise e => Raise e
          end
      | NumAuto k =>
          match positional args k with
          | Ok v => Ok (v, NumAuto (S k))
          | Raise e => Raise e
          end
      end
  | _ =>
      match field_index name with
      | Some i =>
          match st with
          | NumAuto _ => Raise auto_to_manual
          | _ =>
              match positional args i with
              | Ok v => Ok (v, NumManual)
              | Raise e => Raise e
              end
          end
      | None =>
          match kw !! name with
          | Some v => Ok (v, st)
          | None => Raise (Exc KeyError name)
          end
      end
  end.

Fixpoint render (segs : list segment) (args : list value)
    (kw : gmap string value) (st : numbering) : result string :=
  match segs with
  | [] => Ok EmptyString
  | Lit s :: r =>
      match render r args kw st with
      | Ok t => Ok (s +:+ t)
      | Raise e => Raise e
      end
  | Field n :: r =>
      match field_value n args kw st with
      | Raise e => Raise e
      | Ok (v, st') =>
          match render r args kw st' with
          | Ok t => Ok (str v +:+ t)
          | Raise e => Raise e
          end
      end
  end.

(** [tpl.format( *args, **kw)] *)
Definition format (tpl : string) (args : list value)
    (kw : gmap string value) : result string :=
  let (segs, err) := parse tpl in
  match render segs args kw NumInit with
  | Raise e => Raise e
  | Ok s =>
      match err with
      | Some e => Raise e
      | None => Ok s
      end
  end.

End Py.

(* ===================================================================== *)
(** * The host: platform, search path, processes and files                *)
(* ===================================================================== *)

(** What the backend asks of its environment. [which] is [shutil.which]
    on the current search path, [subprocess_call] the exit status of a
    foreground child process that could be started,
    [get_litex_git_revision] the revision string of [litex.build.tools]. *)
Record world := World {
  sys_platform : string;
  which : string -> option string;
  subprocess_call : list string -> Z;
  get_litex_git_revision : string
}.

Inductive event :=
| EvWhich (cmd : string)
| EvSpawn (argv : list string)
| EvBuildPdc (build_name : string)
| EvWrite (path contents : string) (force_unix : option bool).

(** Computations that read the world, log their effects in order and may
    raise. *)
Definition M (A : Type) : Type :=
  world -> list event -> Py.result A * list event.

Definition ret {A} (a : A) : M A := fun _ tr => (Py.Ok a, tr).

Definition raise {A} (e : Py.exc) : M A := fun _ tr => (Py.Raise e, tr).

Definition bind {A B} (m : M A) (k : A -> M B) : M B :=
  fun w tr =>
    match m w tr with
    | (Py.Ok a, tr') => k a w tr'
    | (Py.Raise e, tr') => (Py.Raise e, tr')
    end.

Declare Scope py_scope.
Delimit Scope py_scope with py.
Notation "x <- m ;; k" := (bind m (fun x => k))
  (at level 100, m at next level, right associativity) : py_scope.
Notation "m ;;; k" := (bind m (fun _ => k))
  (at level 100, right associativity) : py_scope.
Open Scope py_scope.

Definition lift {A} (r : Py.result A) : M A := fun _ tr => (r, tr).

Definition ask {A} (f : world -> A) : M A := fun w tr => (Py.Ok (f w), tr).

Definition emit (e : event) : M unit := fun _ tr => (Py.Ok tt, tr ++ [e]).

Definition shutil_which (cmd : string) : M (option string) :=
  emit (EvWhich cmd) ;;; ask (fun w => which w cmd).

Definition call (argv : list string) : M Z :=
  emit (EvSpawn argv) ;;; ask (fun w => subprocess_call w argv).

Definition write_to_file (path contents : string) (force_unix : option bool)
  : M unit :=
  emit (EvWrite path contents force_unix).

Definition _build_pdc (build_name : string) : M unit :=
  emit (EvBuildPdc build_name).

(** [for x in xs: acc = body(acc, x)] *)
Fixpoint for_each {A S} (xs : list A) (body : S -> A -> M S) (acc : S) : M S :=
  match xs with
  | [] => ret acc
  | x :: r => acc' <- body acc x ;; for_each r body acc'
  end.

Definition run {A} (m : M A) (w : world) : Py.result A * list event := m w [].

Definition spawns (tr : list event) : list (list string) :=
  flat_map (fun e => match e with EvSpawn argv => [argv] | _ => [] end) tr.

Definition writes (tr : list event) : list (string * string) :=
  flat_map (fun e => match e with EvWrite p c _ => [(p, c)] | _ => [] end) tr.

(** [x in (a, b, ...)] on strings *)
Definition in_tuple (x : string) (t : list string) : bool :=
  existsb (String.eqb x) t.

(* ===================================================================== *)
(** * LatticeOxideToolchain                                               *)
(* ===================================================================== *)

(** One entry of [platform.sources]: [(filename, language, library, *copy)]. *)
Record SourceFile := Source {
  filename : string;
  language : string;
  library : string;
  copy : list bool
}.

Record Platform := {
  device : string;
  sources : list SourceFile;
  verilog_include_paths : list string
}.

Record LatticeOxideToolchain := Toolchain {
  platform : Platform;
  _build_name : string;
  _nowidelut : bool;
  _abc9 : bool;
  _timingstrict : bool;
  _ignoreloops : bool;
  _seed : Z;
  _es_device : bool;
  yosys_template : list string;
  build_template : list string
}.

(** The last line of [_yosys_template]. *)
Definition synth_nexus_template : string :=
  "synth_nexus -flatten {nwl} {abc} -json {build_name}.json -top {build_name}".

Definition _yosys_template : list string := [
  "verilog_defaults -push";
  "verilog_defaults -add -defer";
  "{read_files}";
  "verilog_defaults -pop";
  "attrmap -tocase keep -imap keep=" +:+ Py.dquote +:+ "true" +:+ Py.dquote
    +:+ " keep=1 -imap keep=" +:+ Py.dquote +:+ "false" +:+ Py.dquote
    +:+ " keep=0 -remove keep=0";
  synth_nexus_template
].

(** The second line of [_build_template]. It is written in the source with
    a backslash-newline inside the literal: the line break is dropped, the
    indentation of the continuation line stays. *)
Definition nextpnr_template : string :=
  "nextpnr-nexus --json {build_name}.json --pdc {build_name}.pdc --fasm {build_name}.fasm     --device {device} {timefailarg} {ignoreloops} --seed {seed}".

Definition _build_template : list string := [
  "yosys -l {build_name}.rpt {build_name}.ys";
  nextpnr_template;
  "prjoxide pack {build_name}.fasm {build_name}.bit"
].

(** [__init__], with the platform and the build name that
    [GenericToolchain.build] binds before it runs the methods below, and the
    defaults of [build] for the options. *)
Definition init (pf : Platform) (build_name : string) : LatticeOxideToolchain :=
  {| platform := pf;
     _build_name := build_name;
     _nowidelut := false;
     _abc9 := false;
     _timingstrict := false;
     _ignoreloops := false;
     _seed := 1;
     _es_device := false;
     yosys_template := _yosys_template;
     build_template := _build_template |}.

(** [build]: the options are stored on the object. *)
Definition build (self : LatticeOxideToolchain)
    (nowidelut abc9 timingstrict ignoreloops : bool) (seed : Z)
    (es_device : bool) : LatticeOxideToolchain :=
  {| platform := platform self;
     _build_name := _build_name self;
     _nowidelut := nowidelut;
     _abc9 := abc9;
     _timingstrict := timingstrict;
     _ignoreloops := ignoreloops;
     _seed := seed;
     _es_device := es_device;
     yosys_template := yosys_template self;
     build_template := build_template self |}.

(** ** Constraints *)

Definition build_io_constraints (self : LatticeOxideToolchain)
  : M (string * string) :=
  _build_pdc (_build_name self) ;;;
  ret (_build_name self +:+ ".pdc", "PDC").

(** ** Yosys/Nextpnr helpers *)

Definition result_bind {A B} (r : Py.result A) (k : A -> Py.result B)
  : Py.result B :=
  match r with
  | Py.Ok a => k a
  | Py.Raise e => Py.Raise e
  end.

(** The first loop of [_yosys_import_sources]. *)
Definition _yosys_includes (self : LatticeOxideToolchain) : string :=
  fold_left (fun includes path => includes +:+ (" -I" +:+ path))
    (verilog_include_paths (platform self)) EmptyString.

(** One turn of its second loop: the directive of one source file. *)
Definition read_directive (includes : string) (sf : SourceFile)
  : Py.result string :=
  let language :=
    if String.eqb (language sf) "systemverilog" then "verilog -sv"
    else language sf in
  Py.format "read_{}{} {}"
    [Py.VStr language; Py.VStr includes; Py.VStr (filename sf)] ∅.

(** The second loop: the list [reads]. *)
Definition _yosys_reads (self : LatticeOxideToolchain)
  : Py.result (list string) :=
  let includes := _yosys_includes self in
  fold_left
    (fun reads sf =>
       result_bind reads (fun reads =>
         result_bind (read_directive includes sf)
           (fun d => Py.Ok (reads ++ [d]))))
    (sources (platform self)) (Py.Ok []).

Definition _yosys_import_sources (self : LatticeOxideToolchain)
  : Py.result string :=
  result_bind (_yosys_reads self) (fun reads => Py.Ok (Py.join Py.nl reads)).

Definition nwl_arg (self : LatticeOxideToolchain) : string :=
  if _nowidelut self then "-nowidelut" else EmptyString.

Definition abc_arg (self : LatticeOxideToolchain) : string :=
  if _abc9 self then "-abc9" else EmptyString.

(** The keyword arguments [build_project] passes to [format]. *)
Definition yosys_kwargs (self : LatticeOxideToolchain) (read_files : string)
  : gmap string Py.value :=
  <["build_name" := Py.VStr (_build_name self)]>
  (<["nwl" := Py.VStr (nwl_arg self)]>
  (<["abc" := Py.VStr (abc_arg self)]>
  (<["read_files" := Py.VStr read_files]> ∅))).

(** One turn of the loop of [build_project]: the rendered line of [l]. *)
Definition yosys_line (self : LatticeOxideToolchain) (l : string)
  : Py.result string :=
  result_bind (_yosys_import_sources self) (fun read_files =>
    Py.format l [] (yosys_kwargs self read_files)).

Definition build_project (self : LatticeOxideToolchain) : M unit :=
  ys <- for_each (yosys_template self)
          (fun ys l => r <- lift (yosys_line self l) ;; ret (ys ++ [r])) [] ;;
  write_to_file (_build_name self +:+ ".ys") (Py.join Py.nl ys) None.

(** ** Script *)

Definition is_windows (p : string) : bool := in_tuple p ["win32"; "cygwin"].

Definition script_ext (p : string) : string :=
  if is_windows p then ".bat" else ".sh".

Definition script_header (p rev : string) : string :=
  if is_windows p then
    "@echo off" +:+ Py.nl +:+ "rem Autogenerated by LiteX / git: " +:+ rev
      +:+ Py.nl +:+ Py.nl
  else
    "# Autogenerated by LiteX / git: " +:+ rev +:+ Py.nl +:+ "set -e" +:+ Py.nl.

Definition fail_stmt (p : string) : string :=
  if is_windows p then " || exit /b" else EmptyString.

Definition device_arg (self : LatticeOxideToolchain) : string :=
  device (platform self) +:+ (if _es_device self then "ES" else EmptyString).

Definition timefail_arg (self : LatticeOxideToolchain) : string :=
  if negb (_timingstrict self) then "--timing-allow-fail" else EmptyString.

Definition ignoreloops_arg (self : LatticeOxideToolchain) : string :=
  if _ignoreloops self then "--ignore-loops" else EmptyString.

(** The keyword arguments [build_script] passes to [format]. *)
Definition build_kwargs (self : LatticeOxideToolchain) (fail : string)
  : gmap string Py.value :=
  <["build_name" := Py.VStr (_build_name self)]>
  (<["device" := Py.VStr (device_arg self)]>
  (<["timefailarg" := Py.VStr (timefail_arg self)]>
  (<["ignoreloops" := Py.VStr (ignoreloops_arg self)]>
  (<["fail_stmt" := Py.VStr fail]>
  (<["seed" := Py.VInt (_seed self)]> ∅))))).

(** One turn of the loop of [build_script]: the rendered line of [s]. *)
Definition build_line (self : LatticeOxideToolchain) (fail s : string)
  : Py.result string :=
  let s_fail := s +:+ "{fail_stmt}" +:+ Py.nl in
  Py.format s_fail [] (build_kwargs self fail).

Definition build_script (self : LatticeOxideToolchain) : M string :=
  p <- ask sys_platform ;;
  rev <- ask get_litex_git_revision ;;
  script_contents <-
    for_each (build_template self)
      (fun script_contents s =>
         r <- lift (build_line self (fail_stmt p) s) ;;
         ret (script_contents +:+ r))
      (script_header p rev) ;;
  let script_file := "build_" +:+ _build_name self +:+ script_ext p in
  write_to_file script_file script_contents (Some false) ;;;
  ret script_file.

Definition env_error_msg : string :=
  "Unable to find Yosys/Nextpnr toolchain, please:" +:+ Py.nl
  +:+ "- Add Yosys/Nextpnr toolchain to your $PATH.".

Definition exec_error_msg : string :=
  "Error occured during Yosys/Nextpnr's script execution.".

Definition is_None {A} (o : option A) : bool :=
  match o with None => true | Some _ => false end.

Definition shell_of (p : string) : list string :=
  if is_windows p then ["cmd"; "/c"] else ["bash"].

Definition run_script (script : string) : M unit :=
  p <- ask sys_platform ;;
  let shell := shell_of p in
  yosys <- shutil_which "yosys" ;;
  missing <- (if is_None yosys then ret true
              else nextpnr <- shutil_which "nextpnr-nexus" ;;
                   ret (is_None nextpnr)) ;;
  (if missing : bool then raise (Py.Exc Py.OSError env_error_msg) else ret tt) ;;;
  rc <- call (shell ++ [script]) ;;
  if negb (rc =? 0)%Z then raise (Py.Exc Py.OSError exec_error_msg)
  else ret tt.

(** The names of the keyword arguments of the two [format] calls. *)
Definition yosys_keys : list string :=
  ["build_name"; "nwl"; "abc"; "read_files"].

Definition build_keys : list string :=
  ["build_name"; "device"; "timefailarg"; "ignoreloops"; "fail_stmt"; "seed"].

(** ** The rendered commands, token by token

    What the templates render to with the keyword arguments above (lemmas
    [synth_nexus_render] and [build_template_render]); the tokens are
    separated by single spaces. *)

Definition synth_nexus_cmd (self : LatticeOxideToolchain) : string :=
  Py.join " "
    ["synth_nexus"; "-flatten"; nwl_arg self; abc_arg self; "-json";
     _build_name self +:+ ".json"; "-top"; _build_name self].

Definition yosys_cmd (self : LatticeOxideToolchain) : string :=
  Py.join " "
    ["yosys"; "-l"; _build_name self +:+ ".rpt"; _build_name self +:+ ".ys"].

Definition nextpnr_cmd (self : LatticeOxideToolchain) : string :=
  Py.join " "
    ["nextpnr-nexus"; "--json"; _build_name self +:+ ".json";
     "--pdc"; _build_name self +:+ ".pdc";
     "--fasm"; _build_name self +:+ ".fasm";
     EmptyString; EmptyString; EmptyString; EmptyString;
     "--device"; device_arg self; timefail_arg self; ignoreloops_arg self;
     "--seed"; Py.str (Py.VInt (_seed self))].

Definition pack_cmd (self : LatticeOxideToolchain) : string :=
  Py.join " "
    ["prjoxide"; "pack"; _build_name self +:+ ".fasm";
     _build_name self +:+ ".bit"].

(** ** The files a build names *)

(** The seven paths of a build in closed form, in the order of
    [produced_paths] below, which collects them from the methods and from
    the rendered commands. *)
Definition output_paths (p : string) (self : LatticeOxideToolchain)
  : list string :=
  let build_name := _build_name self in
  [ build_name +:+ ".ys";
    build_name +:+ ".pdc";
    "build_" +:+ build_name +:+ script_ext p;
    build_name +:+ ".json";
    build_name +:+ ".rpt";
    build_name +:+ ".fasm";
    build_name +:+ ".bit" ].

Definition b2n (b : bool) : nat := if b then 1%nat else 0%nat.

(** ** Sample hosts and builds *)

Definition posix_host : world :=
  World "linux" (fun _ => Some "/usr/bin/tool") (fun _ => 0%Z) "0a1b2c3".

Definition windows_host : world :=
  World "win32" (fun _ => Some "/usr/bin/tool") (fun _ => 0%Z) "0a1b2c3".

Definition host_without_nextpnr : world :=
  World "linux"
    (fun cmd => if String.eqb cmd "yosys" then Some "/usr/bin/yosys" else None)
    (fun _ => 0%Z) "0a1b2c3".

Definition failing_host : world :=
  World "linux" (fun _ => Some "/usr/bin/tool") (fun _ => 1%Z) "0a1b2c3".

Definition sample_platform : Platform :=
  {| device := "LIFCL-40-9BG400C";
     sources := [Source "a.v" "verilog" "work" [];
                 Source "b.sv" "systemverilog" "work" []];
     verilog_include_paths := [] |}.

(** Two builds of one platform under different names. *)
Definition soc_build : LatticeOxideToolchain := init sample_platform "soc".

Definition top_build : LatticeOxideToolchain := init sample_platform "top".

(** A subclass that adds a placeholder the backend does not supply. *)
Definition custom_top_build : LatticeOxideToolchain :=
  {| platform := sample_platform;
     _build_name := "top";
     _nowidelut := false;
     _abc9 := false;
     _timingstrict := false;
     _ignoreloops := false;
     _seed := 1;
     _es_device := false;
     yosys_template := ["synth_nexus -json {build_name}.json -top {top_module}"];
     build_template := _build_template |}.

(* ===================================================================== *)
(** * Command-line options                                                *)
(* ===================================================================== *)

(** The values an option of this backend can take: [store_true] flags,
    [type=int] values, and [None] for an option without default. *)
Inductive argval :=
| ABool (b : bool)
| AInt (z : Z)
| ANone.










(** [oxide_argdict]; [None] stands for the [AttributeError] of a namespace
    that lacks one of the attributes. *)
Definition oxide_argdict (args : gmap string argval)
  : option (gmap string argval) :=
  match args !! "yosys_nowidelut", args !! "yosys_abc9",
        args !! "nextpnr_timingstrict", args !! "nextpnr_ignoreloops",
        args !! "nextpnr_seed", args !! "nexus_es_device" with
  | Some nowidelut, Some abc9, Some timingstrict, Some ignoreloops,
    Some seed, Some es_device =>
      Some (<["nowidelut" := nowidelut]>
           (<["abc9" := abc9]>
           (<["timingstrict" := timingstrict]>
           (<["ignoreloops" := ignoreloops]>
           (<["seed" := seed]>
           (<["es_device" := es_device]> ∅))))))
  | _, _, _, _, _, _ => None
  end.

(** Truth value of an option value, as [if value:] takes it. *)
Definition truthy (v : argval) : bool :=
  match v with
  | ABool b => b
  | AInt z => negb (z =? 0)%Z
  | ANone => false
  end.

Definition option_dests : list string :=
  ["yosys_nowidelut"; "yosys_abc9"; "nextpnr_timingstrict";
   "nextpnr_ignoreloops"; "nextpnr_seed"; "nexus_es_device"].

Definition option_keys : list string :=
  ["nowidelut"; "abc9"; "timingstrict"; "ignoreloops"; "seed"; "es_device"].

(** [self.build(platform, fragment, **kw)]: the six options are bound by
    name, with the defaults of the signature, and stored; what is left of
    [kw] goes on to [GenericToolchain.build]. The flags are only ever
    tested, so their truth value is stored; a seed that is not an integer
    is outside this model ([None]). *)
Definition build_call (self : LatticeOxideToolchain) (kw : gmap string argval)
  : option (LatticeOxideToolchain * gmap string argval) :=
  let get k d := match kw !! k with Some v => v | None => d end in
  match get "seed" (AInt 1) with
  | AInt seed =>
      Some (build self
              (truthy (get "nowidelut" (ABool false)))
              (truthy (get "abc9" (ABool false)))
              (truthy (get "timingstrict" (ABool false)))
              (truthy (get "ignoreloops" (ABool false)))
              seed
              (truthy (get "es_device" (ABool false))),
            fold_right delete kw option_keys)
  | _ => None
  end.

(* ===================================================================== *)
(** * Reading the rendered commands                                       *)
(* ===================================================================== *)

(** [int(s)] for a decimal numeral with an optional minus sign. *)
Definition py_int (s : string) : option Z :=
  option_map Z.of_int (NilZero.int_of_string s).

(** How often [flag] is one of the blank-separated arguments of [line]. *)
Definition arg_count (line flag : string) : nat :=
  count_occ string_dec (Py.split " " line) flag.

(** The argument that follows the option [opt] in a command line. *)
Fixpoint arg_after (opt : string) (tokens : list string) : option string :=
  match tokens with
  | [] => None
  | t :: r =>
      if String.eqb t opt then
        match r with
        | v :: _ => Some v
        | [] => None
        end
      else arg_after opt r
  end.

(** [line] without its final line feed, if it has one. *)
Fixpoint chomp (line : string) : string :=
  match line with
  | EmptyString => EmptyString
  | String c EmptyString =>
      if Ascii.eqb c "010" then EmptyString else line
  | String c r => String c (chomp r)
  end.

(** The files a command line names as the outputs of its tool: the log of
    [yosys -l], the netlist of [synth_nexus -json], the [--fasm] file of
    [nextpnr-nexus], the second file of [prjoxide pack]. The arguments are
    the blank-separated words of the line. *)
Definition command_outputs (line : string) : list string :=
  match Py.split " " line with
  | [] => []
  | tool :: args =>
      if String.eqb tool "yosys" then option_list (arg_after "-l" args)
      else if String.eqb tool "synth_nexus" then
        option_list (arg_after "-json" args)
      else if String.eqb tool "nextpnr-nexus" then
        option_list (arg_after "--fasm" args)
      else if String.eqb tool "prjoxide" then
        match args with
        | sub :: _ :: out :: _ => if String.eqb sub "pack" then [out] else []
        | _ => []
        end
      else []
  end.

Definition written_paths (tr : list event) : list string :=
  map fst (writes tr).

(** The paths of the files a build produces: the ones [build_project] and
    [build_script] write, the one [build_io_constraints] returns for the
    constraints it has [_build_pdc] write, and the ones that the commands of
    the two scripts, as the loops of [build_project] and [build_script]
    render them, name as outputs of the tools. *)
Definition produced_paths (w : world) (self : LatticeOxideToolchain)
  : list string :=
  let fail := fail_stmt (sys_platform w) in
  written_paths (snd (run (build_project self) w))
  ++ match fst (run (build_io_constraints self) w) with
     | Py.Ok (path, _) => [path]
     | Py.Raise _ => []
     end
  ++ written_paths (snd (run (build_script self) w))
  ++ flat_map
       (fun l =>
          match yosys_line self l with
          | Py.Ok line => command_outputs line
          | Py.Raise _ => []
          end)
       (yosys_template self)
  ++ flat_map
       (fun s =>
          match build_line self fail s with
          | Py.Ok line => command_outputs (chomp line)
          | Py.Raise _ => []
          end)
       (build_template self).

(** The driver script is generated, then run, as the generic build flow
    chains the two methods. *)
Definition build_and_run (self : LatticeOxideToolchain) : M unit :=
  script <- build_script self ;;
  run_script script.

(** The platform with another device name. *)
Definition with_device (pf : Platform) (d : string) : Platform :=
  {| device := d;
     sources := sources pf;
     verilog_include_paths := verilog_include_paths pf |}.

(** The platform with other source files and include paths. *)
Definition with_sources (pf : Platform) (srcs : list SourceFile)
    (paths : list string) : Platform :=
  {| device := device pf;
     sources := srcs;
     verilog_include_paths := paths |}.

(** ** More sample inputs *)

Definition vhdl_platform : Platform :=
  {| device := "LIFCL-40-9BG400C";
     sources := [Source "core.vhd" "vhdl" "work" [];
                 Source "top.v" "verilog" "work" [true]];
     verilog_include_paths := ["rtl"; "rtl/inc"] |}.

Definition vhdl_platform_other_library : Platform :=
  {| device := "LIFCL-40-9BG400C";
     sources := [Source "core.vhd" "vhdl" "ip" [false];
                 Source "top.v" "verilog" "ip" []];
     verilog_include_paths := ["rtl"; "rtl/inc"] |}.

Definition host_without_yosys : world :=
  World "linux"
    (fun cmd =>
       if String.eqb cmd "nextpnr-nexus" then Some "/usr/bin/nextpnr-nexus"
       else None)
    (fun _ => 0%Z) "0a1b2c3".

Definition sample_namespace : gmap string argval :=
  <["yosys_nowidelut" := ABool true]>
  (<["yosys_abc9" := ABool false]>
  (<["nextpnr_timingstrict" := ABool true]>
  (<["nextpnr_ignoreloops" := ABool false]>
  (<["nextpnr_seed" := AInt 42]>
  (<["nexus_es_device" := ABool true]>
  (<["build" := ABool true]> ∅)))))).



(* ===================================================================== *)
(** * Facts about the builtins                                            *)
(* ===================================================================== *)

Module PyFacts.
Import Py.

Lemma app_cons c s t : String c s +:+ t = String c (s +:+ t).
Proof. reflexivity. Qed.

Lemma app_nil_l s : EmptyString +:+ s = s.
Proof. reflexivity. Qed.

Lemma app_nil_r s : s +:+ EmptyString = s.
Proof. induction s as [|c s IH]; [reflexivity|]. by rewrite app_cons, IH. Qed.

Lemma app_assoc s t u : (s +:+ t) +:+ u = s +:+ (t +:+ u).
Proof.
  induction s as [|c s IH]; [reflexivity|]. by rewrite !app_cons, IH.
Qed.

Lemma app_length s t :
  String.length (s +:+ t) = (String.length s + String.length t)%nat.
Proof.
  induction s as [|c s IH]; [reflexivity|].
  rewrite app_cons. simpl. by rewrite IH.
Qed.

(** Equal strings with tails of the same length have equal heads and
    equal tails. *)
Lemma app_inv_len a b e1 e2 :
  String.length e1 = String.length e2 ->
  a +:+ e1 = b +:+ e2 -> a = b /\ e1 = e2.
Proof.
  intros Hlen. revert b.
  induction a as [|c a IH]; intros [|d b] H.
  - by rewrite !app_nil_l in H.
  - apply (f_equal String.length) in H.
    rewrite app_nil_l, app_cons in H. simpl in H.
    rewrite app_length in H. lia.
  - apply (f_equal String.length) in H.
    rewrite app_nil_l, app_cons in H. simpl in H.
    rewrite app_length in H. lia.
  - rewrite !app_cons in H. injection H as -> H.
    destruct (IH _ H) as [-> ->]. done.
Qed.

(** ** Characters of a string *)

Lemma str_in_char_app c s t :
  str_in_char c (s +:+ t) = str_in_char c s || str_in_char c t.
Proof.
  induction s as [|d s IH]; [reflexivity|].
  rewrite app_cons. simpl. by rewrite IH, orb_assoc.
Qed.

Lemma str_in_char_join c sep ls :
  str_in_char c sep = false ->
  Forall (fun s => str_in_char c s = false) ls ->
  str_in_char c (join sep ls) = false.
Proof.
  intros Hsep H. unfold join. induction H as [|x ls Hx Hls IH]; [done|].
  destruct ls as [|y ls]; [done|].
  change (String.concat sep (x :: y :: ls))
    with (x +:+ sep +:+ String.concat sep (y :: ls)).
  by rewrite !str_in_char_app, Hx, Hsep, IH.
Qed.

Lemma last_char_app s t :
  t <> EmptyString -> last_char (s +:+ t) = last_char t.
Proof.
  intros Ht. induction s as [|c s IH]; [reflexivity|].
  rewrite app_cons. simpl. rewrite IH.
  destruct (s +:+ t) eqn:E; [|done].
  destruct s; [rewrite app_nil_l in E; done | by rewrite app_cons in E].
Qed.

Lemma last_char_app_or s t :
  last_char (s +:+ t)
  = match last_char t with Some c => Some c | None => last_char s end.
Proof.
  destruct t as [|c t].
  - by rewrite app_nil_r.
  - rewrite last_char_app by done.
    assert (H : exists d, last_char (String c t) = Some d).
    { revert c. induction t as [|e t IH]; intros c; [by eexists|].
      destruct (IH e) as [d Hd]. exists d. by rewrite <- Hd. }
    destruct H as [d ->]. done.
Qed.

Lemma last_char_in s c : last_char s = Some c -> str_in_char c s = true.
Proof.
  induction s as [|d s IH]; [done|]. simpl.
  destruct s as [|e s].
  - intros [= ->]. by rewrite Ascii.eqb_refl.
  - intros H. rewrite (IH H). apply orb_true_r.
Qed.

Lemma str_endswith_last s suf c :
  str_endswith s suf = true -> last_char suf = Some c -> last_char s = Some c.
Proof.
  intros H Hc. induction s as [|d s IH].
  - destruct suf; [done|]. simpl in H. done.
  - cbn [str_endswith] in H. apply orb_true_iff in H as [H|H].
    + apply String.eqb_eq in H. by subst.
    + specialize (IH H). simpl. by destruct s.
Qed.

Lemma str_endswith_app s suf : str_endswith (s +:+ suf) suf = true.
Proof.
  induction s as [|c s IH].
  - rewrite app_nil_l.
    destruct suf; cbn [str_endswith]; by rewrite String.eqb_refl.
  - rewrite app_cons. cbn [str_endswith]. rewrite IH. apply orb_true_r.
Qed.

(** ** Lines *)

Lemma split_go_sep sep a b cur :
  str_in_char sep a = false ->
  split_go sep (a +:+ String sep b) cur
  = (cur +:+ a) :: split_go sep b EmptyString.
Proof.
  revert cur. induction a as [|x a IH]; intros cur Ha.
  - rewrite app_nil_l, app_nil_r. cbn [split_go].
    by rewrite Ascii.eqb_refl.
  - simpl in Ha. apply orb_false_iff in Ha as [Hx Ha].
    rewrite app_cons. cbn [split_go].
    rewrite Ascii.eqb_sym, Hx, (IH _ Ha). unfold snoc.
    by rewrite app_assoc.
Qed.

(** The text up to the first line feed is the first line. *)
Lemma split_first_line a b :
  str_in_char "010" a = false ->
  split "010" (a +:+ nl +:+ b) = a :: split "010" b.
Proof.
  intros Ha. unfold split.
  change (a +:+ nl +:+ b) with (a +:+ String "010" b).
  by rewrite (split_go_sep _ _ _ _ Ha).
Qed.

(** ** Substrings *)

Lemma prefix_app p s : String.prefix p (p +:+ s) = true.
Proof.
  induction p as [|c p IH]; [by destruct s|].
  rewrite app_cons. simpl. by destruct (ascii_dec c c).
Qed.

Lemma str_contains_prefix s pat :
  String.prefix pat s = true -> str_contains s pat = true.
Proof. intros H. destruct s; cbn [str_contains]; by rewrite H. Qed.

Lemma str_contains_app_r s t pat :
  str_contains t pat = true -> str_contains (s +:+ t) pat = true.
Proof.
  intros H. induction s as [|c s IH]; [done|].
  rewrite app_cons. cbn [str_contains]. rewrite IH. apply orb_true_r.
Qed.

(** ** Occurrences of a pattern *)

Lemma prefix_app_sep pat a c b :
  str_in_char c pat = false ->
  String.prefix pat (a +:+ String c b) = String.prefix pat a.
Proof.
  revert a. induction pat as [|p pat IH]; intros a Hc.
  - by destruct a.
  - simpl in Hc. apply orb_false_iff in Hc as [Hp Hc].
    destruct a as [|x a].
    + rewrite app_nil_l. simpl.
      destruct (ascii_dec p c) as [->|Hne]; [|done].
      by rewrite Ascii.eqb_refl in Hp.
    + rewrite app_cons. simpl.
      destruct (ascii_dec p x); [by apply IH | done].
Qed.

Lemma prefix_false_head pat c s :
  pat <> EmptyString -> str_in_char c pat = false ->
  String.prefix pat (String c s) = false.
Proof.
  destruct pat as [|p pat]; [done|]. intros _ Hc. simpl in *.
  apply orb_false_iff in Hc as [Hp _].
  destruct (ascii_dec p c) as [->|]; [|done].
  by rewrite Ascii.eqb_refl in Hp.
Qed.

(** A pattern cannot straddle a character it does not contain. *)
Lemma str_count_sep pat a c b :
  pat <> EmptyString -> str_in_char c pat = false ->
  str_count (a +:+ String c b) pat = (str_count a pat + str_count b pat)%nat.
Proof.
  intros Hne Hc. induction a as [|x a IH].
  - rewrite app_nil_l. cbn [str_count].
    rewrite (prefix_false_head _ _ _ Hne Hc).
    destruct pat; [done|]. simpl. lia.
  - rewrite app_cons. cbn [str_count].
    rewrite <- app_cons, (prefix_app_sep _ _ _ _ Hc), IH. lia.
Qed.

Lemma str_count_join pat c ls :
  pat <> EmptyString -> str_in_char c pat = false ->
  str_count (join (String c EmptyString) ls) pat
  = list_sum (map (fun s => str_count s pat) ls).
Proof.
  intros Hne Hc. unfold join.
  induction ls as [|x [|y ls] IH].
  - simpl. by destruct pat.
  - simpl. lia.
  - change (String.concat (String c EmptyString) (x :: y :: ls))
      with (x +:+ String c (String.concat (String c EmptyString) (y :: ls))).
    rewrite (str_count_sep _ _ _ _ Hne Hc), IH. reflexivity.
Qed.

Lemma prefix_absent pat c s :
  str_in_char c pat = true -> str_in_char c s = false ->
  String.prefix pat s = false.
Proof.
  revert s. induction pat as [|p pat IH]; intros s Hp Hs; [done|].
  destruct s as [|x s]; [done|]. simpl in *.
  apply orb_false_iff in Hs as [Hx Hs].
  destruct (ascii_dec p x) as [->|]; [|done].
  apply IH; [|done].
  apply orb_true_iff in Hp as [Hp|Hp]; [|done]. congruence.
Qed.

(** A pattern with a character that the text lacks does not occur. *)
Lemma str_count_absent pat c s :
  str_in_char c pat = true -> str_in_char c s = false ->
  str_count s pat = 0%nat.
Proof.
  intros Hp. induction s as [|x s IH]; intros Hs.
  - cbn [str_count]. by rewrite (prefix_absent _ _ _ Hp Hs).
  - cbn [str_count]. rewrite (prefix_absent _ _ _ Hp Hs).
    simpl in Hs. apply orb_false_iff in Hs as [_ Hs]. by rewrite IH.
Qed.

Lemma str_contains_count s pat :
  str_contains s pat = negb (str_count s pat =? 0)%nat.
Proof.
  induction s as [|x s IH]; cbn [str_contains str_count].
  - by destruct (String.prefix pat EmptyString).
  - rewrite IH. destruct (String.prefix pat (String x s)); [done|].
    reflexivity.
Qed.

(** ** Decimal numerals *)

Lemma string_of_uint_digits c d :
  is_digit c = false ->
  str_in_char c (NilEmpty.string_of_uint d) = false.
Proof.
  intros Hc. unfold is_digit in Hc. simpl in Hc.
  repeat (apply orb_false_iff in Hc as [? Hc]).
  induction d; simpl; rewrite ?IHd; auto with bool;
    apply orb_false_iff; auto.
Qed.

(** [str(int)] consists of digits and possibly a minus sign. *)
Lemma str_int_chars c z :
  is_digit c = false -> c <> "-"%char ->
  str_in_char c (str (VInt z)) = false.
Proof.
  intros Hc Hm.
  assert (Hz : forall d, str_in_char c (NilZero.string_of_uint d) = false).
  { intros d. destruct d; try apply (string_of_uint_digits c _ Hc).
    unfold is_digit in Hc. simpl in *.
    repeat (apply orb_false_iff in Hc as [? Hc]).
    apply orb_false_iff; auto. }
  unfold str. destruct (Z.to_int z); simpl; [apply Hz|].
  rewrite Hz, orb_false_r. by apply Ascii.eqb_neq.
Qed.

(** ** [str.format] *)

Lemma field_value_kw n kw st v st' :
  field_value n [] kw st = Ok (v, st') -> kw !! n = Some v /\ st' = st.
Proof.
  unfold field_value. destruct n as [|c n].
  - by destruct st.
  - destruct (field_index (String c n)).
    + by destruct st.
    + destruct (kw !! String c n); [|done]. by intros [= -> ->].
Qed.

(** A rendering without positional arguments that succeeds has found every
    field among the keyword arguments. *)
Lemma render_ok_bound segs kw st out :
  render segs [] kw st = Ok out ->
  Forall (fun n => is_Some (kw !! n)) (field_names segs).
Proof.
  revert st out. induction segs as [|[s|n] segs IH]; intros st out H.
  - constructor.
  - simpl in H. destruct (render segs [] kw st) eqn:E; [|done].
    apply (IH _ _ E).
  - cbn [render] in H.
    destruct (field_value n [] kw st) as [[v st']|] eqn:E; [|done].
    destruct (render segs [] kw st') eqn:E'; [|done].
    apply field_value_kw in E as [E _].
    change (field_names (Field n :: segs)) with (n :: field_names segs).
    constructor; [by eexists | apply (IH _ _ E')].
Qed.

Lemma format_ok_bound tpl kw out :
  format tpl [] kw = Ok out ->
  Forall (fun n => is_Some (kw !! n)) (field_names (fst (parse tpl))).
Proof.
  unfold format. destruct (parse tpl) as [segs err]. simpl.
  destruct (render segs [] kw NumInit) eqn:E; [|done].
  intros _. apply (render_ok_bound _ _ _ _ E).
Qed.

(** A field without a value makes [format] raise. *)
Lemma format_unbound tpl kw n :
  In n (field_names (fst (parse tpl))) -> kw !! n = None ->
  exists e, format tpl [] kw = Raise e.
Proof.
  intros Hin Hn. destruct (format tpl [] kw) as [out|e] eqn:E; [|by eexists].
  apply format_ok_bound in E. rewrite Forall_forall in E.
  apply list_elem_of_In in Hin. destruct (E _ Hin) as [v Hv]. congruence.
Qed.

(** ** [str.format] on small inputs *)

Example format_keywords :
  format "a {x}-{{y}} {n}" []
    (<["x" := VStr "b"]> (<["n" := VInt (-12)]> ∅)) = Ok "a b-{y} -12".
Proof. reflexivity. Qed.

Example format_positional :
  format "read_{}{} {}" [VStr "verilog"; VStr " -Iinc"; VStr "a.v"] ∅
  = Ok "read_verilog -Iinc a.v".
Proof. reflexivity. Qed.

Example format_key_error :
  format "{x} {y}" [] (<["x" := VStr "b"]> ∅) = Raise (Exc KeyError "y").
Proof. reflexivity. Qed.

Example format_index_error :
  format "{} {x}" [] ∅
  = Raise (Exc IndexError
             "Replacement index 0 out of range for positional args tuple").
Proof. reflexivity. Qed.

Example format_single_brace : format "a } b" [] ∅ = Raise single_close.
Proof. reflexivity. Qed.

Example format_first_error_wins :
  format "{x} }" [] ∅ = Raise (Exc KeyError "x").
Proof. reflexivity. Qed.

End PyFacts.

(* ===================================================================== *)
(** * The process runner                                                  *)
(* ===================================================================== *)

Lemma run_script_missing w script :
  which w "yosys" = None \/ which w "nextpnr-nexus" = None ->
  exists tr,
    run (run_script script) w = (Py.Raise (Py.Exc Py.OSError env_error_msg), tr)
    /\ spawns tr = [].
Proof.
  intros H. unfold run, run_script, bind, ask, shutil_which, emit, bind, ret,
    raise. simpl.
  destruct (which w "yosys") as [y|] eqn:Hy; simpl.
  - destruct H as [H|H]; [done|]. rewrite H. simpl. by eexists.
  - by eexists.
Qed.

Lemma run_script_found w script y n :
  which w "yosys" = Some y -> which w "nextpnr-nexus" = Some n ->
  let argv := shell_of (sys_platform w) ++ [script] in
  let tr := [EvWhich "yosys"; EvWhich "nextpnr-nexus"; EvSpawn argv] in
  run (run_script script) w =
    (if (subprocess_call w argv =? 0)%Z then Py.Ok tt
     else Py.Raise (Py.Exc Py.OSError exec_error_msg), tr).
Proof.
  intros Hy Hn. unfold run, run_script, bind, ask, shutil_which, emit, bind,
    ret, raise, call, shell_of. simpl. rewrite Hy. simpl. rewrite Hn. simpl.
  unfold bind, emit, ask. simpl.
  by destruct (subprocess_call w _ =? 0)%Z.
Qed.

(* ===================================================================== *)
(** * Loops that render a template                                        *)
(* ===================================================================== *)

Section ForEach.
Context {A S : Type} (f : A -> Py.result string) (g : S -> string -> S).

(** Every line renders: the loop folds the rendered lines into the
    accumulator and has no effect. *)
Lemma for_each_render xs rs acc w tr :
  Forall2 (fun x r => f x = Py.Ok r) xs rs ->
  for_each xs (fun acc x => r <- lift (f x) ;; ret (g acc r)) acc w tr
  = (Py.Ok (fold_left g rs acc), tr).
Proof.
  intros H. revert acc. induction H as [|x r xs rs Hx _ IH]; intros acc.
  - reflexivity.
  - cbn [for_each fold_left]. unfold bind at 1. unfold bind, lift, ret.
    rewrite Hx. apply IH.
Qed.

(** Some line raises: so does the loop, at the first such line, without
    effect. *)
Lemma for_each_raise xs acc w tr x :
  In x xs -> (exists e, f x = Py.Raise e) ->
  exists e,
    for_each xs (fun acc x => r <- lift (f x) ;; ret (g acc r)) acc w tr
    = (Py.Raise e, tr).
Proof.
  intros Hin Hx. revert acc. induction xs as [|y xs IH]; intros acc; [done|].
  cbn [for_each]. unfold bind at 1. unfold bind at 1, lift, ret.
  destruct (f y) as [r|e] eqn:Hy; [|by eexists].
  destruct Hin as [->|Hin]; [|by apply IH].
  destruct Hx as [e He]. congruence.
Qed.

End ForEach.

(* ===================================================================== *)
(** * The source importer                                                 *)
(* ===================================================================== *)

Lemma read_directive_eq includes sf :
  read_directive includes sf =
  Py.Ok ("read_" +:+
         (if String.eqb (language sf) "systemverilog" then "verilog -sv"
          else language sf) +:+ includes +:+ " " +:+ filename sf).
Proof.
  unfold read_directive.
  set (lang := if String.eqb _ _ then _ else _).
  transitivity (Py.Ok (A:=string)
    ("read_" +:+ lang +:+ includes +:+ " " +:+ filename sf +:+ EmptyString));
    [reflexivity | by rewrite PyFacts.app_nil_r].
Qed.

(** The loop invariant of the second loop of [_yosys_import_sources]. *)
Lemma yosys_reads_loop includes srcs acc :
  fold_left
    (fun reads sf =>
       result_bind reads (fun reads =>
         result_bind (read_directive includes sf)
           (fun d => Py.Ok (reads ++ [d]))))
    srcs (Py.Ok acc)
  = Py.Ok (acc ++ map (fun sf =>
       "read_" +:+
       (if String.eqb (language sf) "systemverilog" then "verilog -sv"
        else language sf) +:+ includes +:+ " " +:+ filename sf) srcs).
Proof.
  revert acc. induction srcs as [|sf srcs IH]; intros acc;
    cbn [fold_left result_bind map].
  - by rewrite app_nil_r.
  - rewrite read_directive_eq. cbn [result_bind]. rewrite IH.
    by rewrite <- app_assoc.
Qed.

Lemma yosys_import_sources_total self :
  exists text, _yosys_import_sources self = Py.Ok text.
Proof.
  unfold _yosys_import_sources, _yosys_reads.
  rewrite yosys_reads_loop. simpl. by eexists.
Qed.

(** The include flags are the paths in order, each behind [ -I]. *)
Lemma yosys_includes_loop paths acc :
  fold_left (fun includes path => includes +:+ (" -I" +:+ path)) paths acc
  = acc +:+ String.concat EmptyString (map (fun path => " -I" +:+ path) paths).
Proof.
  revert acc. induction paths as [|x [|y paths] IH]; intros acc.
  - simpl. by rewrite PyFacts.app_nil_r.
  - reflexivity.
  - change (fold_left _ (x :: y :: paths) acc) with
      (fold_left (fun includes path => includes +:+ (" -I" +:+ path))
         (y :: paths) (acc +:+ (" -I" +:+ x))).
    rewrite IH. rewrite PyFacts.app_assoc. reflexivity.
Qed.

(* ===================================================================== *)
(** * The synthesis script                                                *)
(* ===================================================================== *)

Lemma synth_nexus_render self rf :
  Py.format synth_nexus_template [] (yosys_kwargs self rf)
  = Py.Ok (synth_nexus_cmd self).
Proof.
  transitivity (Py.Ok (A:=string)
    ("synth_nexus -flatten " +:+ nwl_arg self +:+ " " +:+ abc_arg self +:+
     " -json " +:+ _build_name self +:+ ".json -top " +:+ _build_name self
     +:+ EmptyString)); [reflexivity|].
  rewrite PyFacts.app_nil_r. f_equal.
  unfold synth_nexus_cmd, Py.join. cbn [String.concat].
  rewrite !PyFacts.app_assoc. reflexivity.
Qed.

Lemma yosys_line_eq self l rf :
  _yosys_import_sources self = Py.Ok rf ->
  yosys_line self l = Py.format l [] (yosys_kwargs self rf).
Proof. unfold yosys_line. by intros ->. Qed.

(** The six lines of the synthesis script. *)
Lemma yosys_template_render self rf :
  Forall2 (fun l r => Py.format l [] (yosys_kwargs self rf) = Py.Ok r)
    _yosys_template
    ["verilog_defaults -push";
     "verilog_defaults -add -defer";
     rf;
     "verilog_defaults -pop";
     "attrmap -tocase keep -imap keep=" +:+ Py.dquote +:+ "true" +:+ Py.dquote
       +:+ " keep=1 -imap keep=" +:+ Py.dquote +:+ "false" +:+ Py.dquote
       +:+ " keep=0 -remove keep=0";
     synth_nexus_cmd self].
Proof.
  repeat constructor; try reflexivity.
  - transitivity (Py.Ok (A:=string) (rf +:+ EmptyString)); [reflexivity|].
    by rewrite PyFacts.app_nil_r.
  - apply synth_nexus_render.
Qed.

(* ===================================================================== *)
(** * The build driver script                                             *)
(* ===================================================================== *)

Ltac join_assoc :=
  f_equal; unfold Py.join; cbn [String.concat];
  rewrite ?PyFacts.app_assoc, ?PyFacts.app_nil_r; reflexivity.

(** The three command lines without the failure check. *)
Lemma build_template_render self fail :
  Forall2 (fun s r => Py.format s [] (build_kwargs self fail) = Py.Ok r)
    _build_template [yosys_cmd self; nextpnr_cmd self; pack_cmd self].
Proof.
  repeat constructor.
  - transitivity (Py.Ok (A:=string)
      ("yosys -l " +:+ _build_name self +:+ ".rpt " +:+ _build_name self
       +:+ ".ys")); [reflexivity|].
    unfold yosys_cmd. join_assoc.
  - transitivity (Py.Ok (A:=string)
      ("nextpnr-nexus --json " +:+ _build_name self +:+ ".json --pdc " +:+
       _build_name self +:+ ".pdc --fasm " +:+ _build_name self +:+
       ".fasm     --device " +:+ device_arg self +:+ " " +:+
       timefail_arg self +:+ " " +:+ ignoreloops_arg self +:+ " --seed " +:+
       Py.str (Py.VInt (_seed self)) +:+ EmptyString)); [reflexivity|].
    unfold nextpnr_cmd. join_assoc.
  - transitivity (Py.Ok (A:=string)
      ("prjoxide pack " +:+ _build_name self +:+ ".fasm " +:+
       _build_name self +:+ ".bit")); [reflexivity|].
    unfold pack_cmd. join_assoc.
Qed.

(** The three rendered lines of the loop of [build_script]: the command, the
    failure check of the dialect, a line feed. *)
Lemma build_line_render self fail :
  Forall2 (fun s r => build_line self fail s = Py.Ok r)
    _build_template
    [yosys_cmd self +:+ fail +:+ Py.nl;
     nextpnr_cmd self +:+ fail +:+ Py.nl;
     pack_cmd self +:+ fail +:+ Py.nl].
Proof.
  repeat constructor; unfold build_line.
  - transitivity (Py.Ok (A:=string)
      ("yosys -l " +:+ _build_name self +:+ ".rpt " +:+ _build_name self
       +:+ ".ys" +:+ fail +:+ Py.nl)); [reflexivity|].
    unfold yosys_cmd. join_assoc.
  - transitivity (Py.Ok (A:=string)
      ("nextpnr-nexus --json " +:+ _build_name self +:+ ".json --pdc " +:+
       _build_name self +:+ ".pdc --fasm " +:+ _build_name self +:+
       ".fasm     --device " +:+ device_arg self +:+ " " +:+
       timefail_arg self +:+ " " +:+ ignoreloops_arg self +:+ " --seed " +:+
       Py.str (Py.VInt (_seed self)) +:+ fail +:+ Py.nl)); [reflexivity|].
    unfold nextpnr_cmd. join_assoc.
  - transitivity (Py.Ok (A:=string)
      ("prjoxide pack " +:+ _build_name self +:+ ".fasm " +:+
       _build_name self +:+ ".bit" +:+ fail +:+ Py.nl)); [reflexivity|].
    unfold pack_cmd. join_assoc.
Qed.


(** [build_script] with the templates of the class: one file is written, the
    header followed by the three rendered lines. *)
Lemma build_script_run w self :
  build_template self = _build_template ->
  let p := sys_platform w in
  let file := "build_" +:+ _build_name self +:+ script_ext p in
  run (build_script self) w =
    (Py.Ok file,
     [EvWrite file
        (script_header p (get_litex_git_revision w) +:+
         (yosys_cmd self +:+ fail_stmt p +:+ Py.nl) +:+
         (nextpnr_cmd self +:+ fail_stmt p +:+ Py.nl) +:+
         (pack_cmd self +:+ fail_stmt p +:+ Py.nl))
        (Some false)]).
Proof.
  intros Ht p file. unfold run, build_script.
  unfold bind at 1, ask at 1. unfold bind at 1, ask at 1. unfold bind at 1.
  rewrite Ht.
  rewrite (for_each_render (build_line self (fail_stmt (sys_platform w)))
             (fun sc r => sc +:+ r) _ _ _ _ _
             (build_line_render self (fail_stmt (sys_platform w)))).
  cbn [fold_left]. unfold bind, write_to_file, emit, ret. cbn [app].
  subst p file. rewrite !PyFacts.app_assoc. reflexivity.
Qed.

(** [build_project] with the template of the class: one file is written, the
    six rendered lines joined by line feeds. *)
Lemma build_project_run w self rf :
  yosys_template self = _yosys_template ->
  _yosys_import_sources self = Py.Ok rf ->
  run (build_project self) w =
    (Py.Ok tt,
     [EvWrite (_build_name self +:+ ".ys")
        (Py.join Py.nl
           ["verilog_defaults -push";
            "verilog_defaults -add -defer";
            rf;
            "verilog_defaults -pop";
            "attrmap -tocase keep -imap keep=" +:+ Py.dquote +:+ "true"
              +:+ Py.dquote +:+ " keep=1 -imap keep=" +:+ Py.dquote
              +:+ "false" +:+ Py.dquote +:+ " keep=0 -remove keep=0";
            synth_nexus_cmd self])
        None]).
Proof.
  intros Ht Hrf. unfold run, build_project. unfold bind at 1. rewrite Ht.
  rewrite (for_each_render (yosys_line self) (fun ys r => ys ++ [r])
             _ _ _ _ _
             (Forall2_impl _ _ _ _ (yosys_template_render self rf)
                (fun l r H => eq_trans (yosys_line_eq self l rf Hrf) H))).
  reflexivity.
Qed.

(* ===================================================================== *)
(** * Occurrences of the option flags in the rendered commands            *)
(* ===================================================================== *)

Ltac count_tokens :=
  rewrite PyFacts.str_count_join by done;
  cbn [map list_sum];
  rewrite ?PyFacts.str_count_sep by done.

(** In the [synth_nexus] line a flag text occurs once if its option is set,
    and wherever the build name, which the line quotes twice, has it. *)
Lemma synth_nexus_count_nowidelut self :
  Py.str_count (synth_nexus_cmd self) "-nowidelut"
  = (b2n (_nowidelut self)
     + 2 * Py.str_count (_build_name self) "-nowidelut")%nat.
Proof.
  unfold synth_nexus_cmd, nwl_arg, abc_arg. count_tokens.
  destruct (_nowidelut self), (_abc9 self); simpl; lia.
Qed.

Lemma synth_nexus_count_abc9 self :
  Py.str_count (synth_nexus_cmd self) "-abc9"
  = (b2n (_abc9 self) + 2 * Py.str_count (_build_name self) "-abc9")%nat.
Proof.
  unfold synth_nexus_cmd, nwl_arg, abc_arg. count_tokens.
  destruct (_nowidelut self), (_abc9 self); simpl; lia.
Qed.

(** The engineering-sample marker adds no occurrence of a flag. *)
Lemma device_arg_count self pat :
  pat <> EmptyString -> Py.str_in_char "E" pat = false ->
  Py.str_count "S" pat = 0%nat ->
  Py.str_count (device_arg self) pat
  = Py.str_count (device (platform self)) pat.
Proof.
  intros Hne HE HS. unfold device_arg. destruct (_es_device self).
  - rewrite (PyFacts.str_count_sep _ _ _ _ Hne HE), HS. lia.
  - by rewrite PyFacts.app_nil_r.
Qed.

(** Neither does the seed, a decimal numeral. *)
Lemma seed_count z pat c :
  Py.str_in_char c pat = true -> Py.is_digit c = false -> c <> "-"%char ->
  Py.str_count (Py.str (Py.VInt z)) pat = 0%nat.
Proof.
  intros Hp Hd Hm. apply (PyFacts.str_count_absent _ c); [done|].
  by apply PyFacts.str_int_chars.
Qed.

(** The failure check and the line feed behind a command add none. *)
Lemma fail_stmt_count cmd p pat :
  pat <> EmptyString -> Py.str_in_char " " pat = false ->
  Py.str_in_char "010" pat = false ->
  Py.str_count ("|| exit /b" +:+ Py.nl) pat = 0%nat ->
  Py.str_count (cmd +:+ fail_stmt p +:+ Py.nl) pat = Py.str_count cmd pat.
Proof.
  intros Hne Hsp Hnl Hf. unfold fail_stmt. destruct (is_windows p).
  - change (cmd +:+ " || exit /b" +:+ Py.nl)
      with (cmd +:+ String " " ("|| exit /b" +:+ Py.nl)).
    rewrite (PyFacts.str_count_sep _ _ _ _ Hne Hsp), Hf. lia.
  - change (cmd +:+ EmptyString +:+ Py.nl)
      with (cmd +:+ String "010" EmptyString).
    rewrite (PyFacts.str_count_sep _ _ _ _ Hne Hnl).
    destruct pat; [done|]. simpl. lia.
Qed.

(** In the place-and-route line a flag text occurs once if the option asks
    for it, and wherever the build name, quoted three times, or the device
    name has it. *)
Lemma nextpnr_count_timing self p :
  Py.str_count (nextpnr_cmd self +:+ fail_stmt p +:+ Py.nl)
    "--timing-allow-fail"
  = (b2n (negb (_timingstrict self))
     + 3 * Py.str_count (_build_name self) "--timing-allow-fail"
     + Py.str_count (device (platform self)) "--timing-allow-fail")%nat.
Proof.
  rewrite fail_stmt_count by done.
  unfold nextpnr_cmd. count_tokens.
  rewrite device_arg_count by done.
  rewrite (seed_count _ _ "t") by done.
  unfold timefail_arg, ignoreloops_arg.
  destruct (_timingstrict self), (_ignoreloops self); simpl; lia.
Qed.

Lemma nextpnr_count_ignoreloops self p :
  Py.str_count (nextpnr_cmd self +:+ fail_stmt p +:+ Py.nl) "--ignore-loops"
  = (b2n (_ignoreloops self)
     + 3 * Py.str_count (_build_name self) "--ignore-loops"
     + Py.str_count (device (platform self)) "--ignore-loops")%nat.
Proof.
  rewrite fail_stmt_count by done.
  unfold nextpnr_cmd. count_tokens.
  rewrite device_arg_count by done.
  rewrite (seed_count _ _ "i") by done.
  unfold timefail_arg, ignoreloops_arg.
  destruct (_timingstrict self), (_ignoreloops self); simpl; lia.
Qed.

(* ===================================================================== *)
(** * Properties of the process runner                                    *)
(* ===================================================================== *)

(** C1. For every host platform and every search path, when [yosys] or
    [nextpnr-nexus] is not found, [run_script] raises an [OSError] whose
    message names the Yosys/Nextpnr toolchain and tells the operator to add
    it to [$PATH], and no child process has been spawned. *)
Theorem run_script_environment_error w script :
  which w "yosys" = None \/ which w "nextpnr-nexus" = None ->
  exists tr,
    run (run_script script) w = (Py.Raise (Py.Exc Py.OSError env_error_msg), tr)
    /\ spawns tr = []
    /\ Py.str_contains env_error_msg "Unable to find Yosys/Nextpnr toolchain"
       = true
    /\ Py.str_contains env_error_msg
         "Add Yosys/Nextpnr toolchain to your $PATH" = true.
Proof.
  intros H. destruct (run_script_missing w script H) as (tr & Hrun & Hsp).
  exists tr. repeat split; try done.
Qed.

Lemma run_script_environment_error_witness :
  (which host_without_nextpnr "yosys" = None \/
   which host_without_nextpnr "nextpnr-nexus" = None) /\
  exists tr,
    run (run_script "build_top.sh") host_without_nextpnr
      = (Py.Raise (Py.Exc Py.OSError env_error_msg), tr)
    /\ spawns tr = []
    /\ Py.str_contains env_error_msg "Unable to find Yosys/Nextpnr toolchain"
       = true
    /\ Py.str_contains env_error_msg
         "Add Yosys/Nextpnr toolchain to your $PATH" = true.
Proof.
  split; [right; reflexivity|].
  apply (run_script_environment_error host_without_nextpnr "build_top.sh").
  right; reflexivity.
Defined.

(** C2, as the code has it. With both executables found, [run_script]
    spawns the interpreter of the dialect on the script, once; a non-zero
    exit status raises an [OSError] with one fixed message, the same for
    every script, and status 0 returns without raising. *)
Theorem run_script_exit_status w script y n :
  which w "yosys" = Some y -> which w "nextpnr-nexus" = Some n ->
  let argv := shell_of (sys_platform w) ++ [script] in
  let tr := [EvWhich "yosys"; EvWhich "nextpnr-nexus"; EvSpawn argv] in
  (subprocess_call w argv <> 0%Z ->
   run (run_script script) w =
     (Py.Raise (Py.Exc Py.OSError
        "Error occured during Yosys/Nextpnr's script execution."), tr))
  /\ (subprocess_call w argv = 0%Z ->
      run (run_script script) w = (Py.Ok tt, tr)).
Proof.
  intros Hy Hn argv tr. pose proof (run_script_found w script y n Hy Hn) as H.
  cbv zeta in H. fold argv in H. fold tr in H. split; intros Hrc.
  - apply Z.eqb_neq in Hrc. by rewrite Hrc in H.
  - apply Z.eqb_eq in Hrc. by rewrite Hrc in H.
Qed.

Lemma run_script_exit_status_witness :
  (which failing_host "yosys" = Some "/usr/bin/tool"
   /\ which failing_host "nextpnr-nexus" = Some "/usr/bin/tool"
   /\ subprocess_call failing_host ["bash"; "build_top.sh"] <> 0%Z
   /\ run (run_script "build_top.sh") failing_host =
        (Py.Raise (Py.Exc Py.OSError
           "Error occured during Yosys/Nextpnr's script execution."),
         [EvWhich "yosys"; EvWhich "nextpnr-nexus";
          EvSpawn ["bash"; "build_top.sh"]]))
  /\ (which windows_host "yosys" = Some "/usr/bin/tool"
      /\ which windows_host "nextpnr-nexus" = Some "/usr/bin/tool"
      /\ subprocess_call windows_host ["cmd"; "/c"; "build_top.bat"] = 0%Z
      /\ run (run_script "build_top.bat") windows_host =
           (Py.Ok tt,
            [EvWhich "yosys"; EvWhich "nextpnr-nexus";
             EvSpawn ["cmd"; "/c"; "build_top.bat"]])).
Proof.
  split.
  - split; [reflexivity|]. split; [reflexivity|]. split; [discriminate|].
    apply (run_script_exit_status failing_host "build_top.sh"
             "/usr/bin/tool" "/usr/bin/tool" eq_refl eq_refl).
    discriminate.
  - split; [reflexivity|]. split; [reflexivity|]. split; [reflexivity|].
    apply (run_script_exit_status windows_host "build_top.bat"
             "/usr/bin/tool" "/usr/bin/tool" eq_refl eq_refl).
    reflexivity.
Defined.

(** C2 as stated fails: the message of the execution error does not contain
    the name of the script that failed. *)
Lemma run_script_error_omits_script_name :
  exists e tr,
    run (run_script "build_top.sh") failing_host = (Py.Raise e, tr)
    /\ spawns tr = [["bash"; "build_top.sh"]]
    /\ Py.str_contains (Py.exc_msg e) "build_top.sh" = false
    /\ Py.str_contains (Py.exc_msg e) "build_top" = false.
Proof.
  exists (Py.Exc Py.OSError exec_error_msg),
    [EvWhich "yosys"; EvWhich "nextpnr-nexus"; EvSpawn ["bash"; "build_top.sh"]].
  repeat split; reflexivity.
Qed.

(** C10. Whatever [run_script] raises is an [OSError]: the environment error
    and the execution error have the same exception type and differ in
    their message only. *)
Theorem run_script_raises_oserror w script e tr :
  run (run_script script) w = (Py.Raise e, tr) ->
  Py.exc_type e = Py.OSError
  /\ (e = Py.Exc Py.OSError env_error_msg
      \/ e = Py.Exc Py.OSError exec_error_msg)
  /\ env_error_msg <> exec_error_msg.
Proof.
  intros H.
  assert (He : e = Py.Exc Py.OSError env_error_msg
               \/ e = Py.Exc Py.OSError exec_error_msg).
  { destruct (which w "yosys") as [y|] eqn:Hy.
    - destruct (which w "nextpnr-nexus") as [n|] eqn:Hn.
      + rewrite (run_script_found w script y n Hy Hn) in H.
        destruct (_ =? _)%Z; [done|]. right. congruence.
      + destruct (run_script_missing w script (or_intror Hn)) as (? & E & _).
        left. congruence.
    - destruct (run_script_missing w script (or_introl Hy)) as (? & E & _).
      left. congruence. }
  split; [by destruct He as [-> | ->]|]. split; [done|]. discriminate.
Qed.

Lemma run_script_raises_oserror_witness :
  run (run_script "build_top.sh") failing_host
    = (Py.Raise (Py.Exc Py.OSError exec_error_msg),
       [EvWhich "yosys"; EvWhich "nextpnr-nexus";
        EvSpawn ["bash"; "build_top.sh"]])
  /\ Py.exc_type (Py.Exc Py.OSError exec_error_msg) = Py.OSError.
Proof.
  split; [reflexivity|].
  apply (run_script_raises_oserror failing_host "build_top.sh" _ _ eq_refl).
Defined.

(* ===================================================================== *)
(** * Properties of the source importer                                   *)
(* ===================================================================== *)

(** C3. [_yosys_import_sources] makes one read directive per source file,
    in the order of [platform.sources]; the language [systemverilog] becomes
    [read_verilog -sv], every other language string is put behind [read_]
    as it is. *)
Theorem yosys_import_sources_order self :
  let includes := _yosys_includes self in
  let directive := fun sf =>
    "read_" +:+
    (if String.eqb (language sf) "systemverilog" then "verilog -sv"
     else language sf) +:+ includes +:+ " " +:+ filename sf in
  _yosys_reads self = Py.Ok (map directive (sources (platform self)))
  /\ _yosys_import_sources self
     = Py.Ok (Py.join Py.nl (map directive (sources (platform self))))
  /\ (forall sf, language sf = "systemverilog" ->
        directive sf = "read_verilog -sv" +:+ includes +:+ " " +:+ filename sf
        /\ Py.str_startswith (directive sf) "read_systemverilog" = false)
  /\ (forall sf, language sf <> "systemverilog" ->
        directive sf = "read_" +:+ language sf +:+ includes +:+ " "
                       +:+ filename sf).
Proof.
  intros includes directive.
  assert (Hreads : _yosys_reads self
                   = Py.Ok (map directive (sources (platform self)))).
  { unfold _yosys_reads. by rewrite yosys_reads_loop. }
  split; [done|]. split.
  { unfold _yosys_import_sources. by rewrite Hreads. }
  split.
  - intros sf Hsv. unfold directive. rewrite Hsv. by split.
  - intros sf Hsv. unfold directive.
    apply String.eqb_neq in Hsv. by rewrite Hsv.
Qed.

Lemma yosys_import_sources_order_witness :
  _yosys_import_sources (init sample_platform "top")
  = Py.Ok ("read_verilog a.v" +:+ Py.nl +:+ "read_verilog -sv b.sv")
  /\ language (Source "b.sv" "systemverilog" "work" []) = "systemverilog"
  /\ Py.str_startswith "read_verilog -sv b.sv" "read_systemverilog" = false
  /\ language (Source "c.vhd" "vhdl" "work" []) <> "systemverilog"
  /\ "read_" +:+ "vhdl" +:+ EmptyString +:+ " " +:+ "c.vhd" = "read_vhdl c.vhd".
Proof.
  destruct (yosys_import_sources_order (init sample_platform "top"))
    as (_ & Htext & Hsv & Hother).
  split; [exact Htext|]. split; [reflexivity|]. split.
  { exact (proj2 (Hsv (Source "b.sv" "systemverilog" "work" []) eq_refl)). }
  assert (Hne : language (Source "c.vhd" "vhdl" "work" []) <> "systemverilog")
    by discriminate.
  split; [exact Hne|].
  exact (eq_sym (Hother (Source "c.vhd" "vhdl" "work" []) Hne)).
Defined.

(* ===================================================================== *)
(** * Properties of the build driver script                               *)
(* ===================================================================== *)

Lemma is_windows_spec p : is_windows p = true <-> p = "win32" \/ p = "cygwin".
Proof.
  unfold is_windows, in_tuple. cbn [existsb].
  rewrite orb_false_r, orb_true_iff, !String.eqb_eq. done.
Qed.

Lemma is_windows_false p :
  p <> "win32" -> p <> "cygwin" -> is_windows p = false.
Proof.
  intros H1 H2. destruct (is_windows p) eqn:E; [|done].
  apply is_windows_spec in E as [?|?]; done.
Qed.

(** No command line ends in the failure check of the batch dialect by
    itself: the first ends in [.ys], the second in the seed, the third in
    [.bit]. *)
Lemma cmds_no_fail_suffix self :
  Forall (fun cmd => Py.str_endswith cmd " || exit /b" = false)
    [yosys_cmd self; nextpnr_cmd self; pack_cmd self].
Proof.
  repeat constructor.
  - destruct (Py.str_endswith _ _) eqn:E; [|done].
    apply (PyFacts.str_endswith_last _ _ "b") in E; [|done].
    unfold yosys_cmd, Py.join in E. cbn [String.concat] in E.
    rewrite !PyFacts.last_char_app_or in E. done.
  - destruct (Py.str_endswith _ _) eqn:E; [|done].
    apply (PyFacts.str_endswith_last _ _ "b") in E; [|done].
    unfold nextpnr_cmd, Py.join in E. cbn [String.concat] in E.
    rewrite !PyFacts.last_char_app_or in E.
    destruct (Py.last_char (Py.str (Py.VInt (_seed self)))) as [c|] eqn:Hc;
      [|done].
    simpl in E. injection E as ->. apply PyFacts.last_char_in in Hc.
    by rewrite PyFacts.str_int_chars in Hc.
  - destruct (Py.str_endswith _ _) eqn:E; [|done].
    apply (PyFacts.str_endswith_last _ _ "b") in E; [|done].
    unfold pack_cmd, Py.join in E. cbn [String.concat] in E.
    rewrite !PyFacts.last_char_app_or in E. done.
Qed.

(** C6. On a Windows-family platform ([win32], [cygwin]) the driver script
    is [build_<name>.bat] and every rendered template line is the command
    followed by [ || exit /b]; on any other platform it is
    [build_<name>.sh], its header has [set -e], the failure fragment is
    empty and no rendered line ends in [ || exit /b]. *)
Theorem build_script_dialect w pf bn nowidelut abc9 timingstrict ignoreloops
    seed es_device :
  let self :=
    build (init pf bn) nowidelut abc9 timingstrict ignoreloops seed es_device in
  let p := sys_platform w in
  let rev := get_litex_git_revision w in
  let cmds := [yosys_cmd self; nextpnr_cmd self; pack_cmd self] in
  Forall2
    (fun s cmd =>
       Py.format s [] (build_kwargs self (fail_stmt p)) = Py.Ok cmd
       /\ build_line self (fail_stmt p) s
          = Py.Ok (cmd +:+ fail_stmt p +:+ Py.nl))
    (build_template self) cmds
  /\ run (build_script self) w =
       (Py.Ok ("build_" +:+ bn +:+ script_ext p),
        [EvWrite ("build_" +:+ bn +:+ script_ext p)
           (script_header p rev +:+
            (yosys_cmd self +:+ fail_stmt p +:+ Py.nl) +:+
            (nextpnr_cmd self +:+ fail_stmt p +:+ Py.nl) +:+
            (pack_cmd self +:+ fail_stmt p +:+ Py.nl))
           (Some false)])
  /\ (p = "win32" \/ p = "cygwin" ->
      script_ext p = ".bat"
      /\ fail_stmt p = " || exit /b"
      /\ Forall (fun cmd =>
           Py.str_endswith (cmd +:+ fail_stmt p) " || exit /b" = true) cmds)
  /\ (p <> "win32" -> p <> "cygwin" ->
      script_ext p = ".sh"
      /\ fail_stmt p = EmptyString
      /\ script_header p rev
         = "# Autogenerated by LiteX / git: " +:+ rev +:+ Py.nl
           +:+ "set -e" +:+ Py.nl
      /\ Py.str_contains (script_header p rev) "set -e" = true
      /\ Forall (fun cmd =>
           Py.str_endswith (cmd +:+ fail_stmt p) " || exit /b" = false) cmds).
Proof.
  intros self p rev cmds. split; [|split; [|split]].
  - pose proof (build_template_render self (fail_stmt p)) as H1.
    pose proof (build_line_render self (fail_stmt p)) as H2.
    change (build_template self) with _build_template.
    unfold _build_template in *. subst cmds.
    repeat match goal with
    | H : Forall2 _ (_ :: _) (_ :: _) |- _ => apply Forall2_cons_1 in H as [? H]
    end.
    repeat constructor; done.
  - apply (build_script_run w self eq_refl).
  - intros Hw. apply is_windows_spec in Hw.
    unfold script_ext, fail_stmt. rewrite Hw.
    split; [done|]. split; [done|].
    subst cmds. repeat constructor; apply PyFacts.str_endswith_app.
  - intros H1 H2. pose proof (is_windows_false p H1 H2) as Hw.
    unfold script_ext, fail_stmt, script_header. rewrite Hw.
    split; [done|]. split; [done|]. split; [done|]. split.
    + do 3 apply PyFacts.str_contains_app_r. reflexivity.
    + subst cmds. pose proof (cmds_no_fail_suffix self) as H.
      rewrite !Forall_cons in H. destruct H as (Ha & Hb & Hc & _).
      repeat constructor; by rewrite PyFacts.app_nil_r.
Qed.

Lemma build_script_dialect_witness :
  (sys_platform windows_host = "win32" \/ sys_platform windows_host = "cygwin")
  /\ script_ext (sys_platform windows_host) = ".bat"
  /\ sys_platform posix_host <> "win32"
  /\ sys_platform posix_host <> "cygwin"
  /\ script_ext (sys_platform posix_host) = ".sh".
Proof.
  split; [left; reflexivity|]. split.
  { exact (proj1 (proj1 (proj2 (proj2 (build_script_dialect windows_host
             sample_platform "top" false false false false 1 false)))
             (or_introl eq_refl))). }
  split; [discriminate|]. split; [discriminate|].
  refine (proj1 (proj2 (proj2 (proj2 (build_script_dialect posix_host
            sample_platform "top" false false false false 1 false))) _ _));
    discriminate.
Defined.

(** C9, as the code has it. On the POSIX dialect the script begins with the
    provenance comment [# Autogenerated by LiteX / git: <revision>] as its
    first line; on the batch dialect it begins with [@echo off] and the
    provenance comment [rem Autogenerated by LiteX / git: <revision>] is
    its second line. *)
Theorem build_script_provenance w pf bn nowidelut abc9 timingstrict ignoreloops
    seed es_device :
  let self :=
    build (init pf bn) nowidelut abc9 timingstrict ignoreloops seed es_device in
  let p := sys_platform w in
  let rev := get_litex_git_revision w in
  exists contents rest,
    run (build_script self) w =
      (Py.Ok ("build_" +:+ bn +:+ script_ext p),
       [EvWrite ("build_" +:+ bn +:+ script_ext p) contents (Some false)])
    /\ (p <> "win32" -> p <> "cygwin" ->
        contents = "# Autogenerated by LiteX / git: " +:+ rev +:+ Py.nl +:+ rest
        /\ (Py.str_in_char "010" rev = false ->
            nth 0 (Py.split "010" contents) EmptyString
            = "# Autogenerated by LiteX / git: " +:+ rev))
    /\ (p = "win32" \/ p = "cygwin" ->
        contents = "@echo off" +:+ Py.nl +:+
                   "rem Autogenerated by LiteX / git: " +:+ rev +:+ Py.nl
                   +:+ rest
        /\ nth 0 (Py.split "010" contents) EmptyString = "@echo off"
        /\ (Py.str_in_char "010" rev = false ->
            nth 1 (Py.split "010" contents) EmptyString
            = "rem Autogenerated by LiteX / git: " +:+ rev)).
Proof.
  intros self p rev.
  set (body := (yosys_cmd self +:+ fail_stmt p +:+ Py.nl) +:+
               (nextpnr_cmd self +:+ fail_stmt p +:+ Py.nl) +:+
               (pack_cmd self +:+ fail_stmt p +:+ Py.nl)).
  exists (script_header p rev +:+ body).
  destruct (is_windows p) eqn:Hw.
  - exists (Py.nl +:+ body). split; [apply (build_script_run w self eq_refl)|].
    split.
    { intros H1 H2. by rewrite (is_windows_false p H1 H2) in Hw. }
    intros _. unfold script_header. rewrite Hw.
    assert (E : ("@echo off" +:+ Py.nl +:+
                 "rem Autogenerated by LiteX / git: " +:+ rev +:+ Py.nl
                 +:+ Py.nl) +:+ body
                = "@echo off" +:+ Py.nl +:+
                  ("rem Autogenerated by LiteX / git: " +:+ rev) +:+ Py.nl
                  +:+ (Py.nl +:+ body)).
    { by rewrite !PyFacts.app_assoc. }
    split; [by rewrite !PyFacts.app_assoc|]. rewrite E.
    rewrite PyFacts.split_first_line by done. split; [done|].
    intros Hrev. rewrite PyFacts.split_first_line; [done|].
    rewrite PyFacts.str_in_char_app, Hrev. done.
  - exists ("set -e" +:+ Py.nl +:+ body).
    split; [apply (build_script_run w self eq_refl)|]. split.
    2: { intros H. apply is_windows_spec in H. congruence. }
    intros _ _. unfold script_header. rewrite Hw.
    assert (E : ("# Autogenerated by LiteX / git: " +:+ rev +:+ Py.nl +:+
                 "set -e" +:+ Py.nl) +:+ body
                = ("# Autogenerated by LiteX / git: " +:+ rev) +:+ Py.nl +:+
                  ("set -e" +:+ Py.nl +:+ body)).
    { by rewrite !PyFacts.app_assoc. }
    split; [by rewrite !PyFacts.app_assoc|]. rewrite E.
    intros Hrev. rewrite PyFacts.split_first_line; [done|].
    rewrite PyFacts.str_in_char_app, Hrev. done.
Qed.

Lemma build_script_provenance_witness :
  sys_platform posix_host <> "win32"
  /\ sys_platform posix_host <> "cygwin"
  /\ Py.str_in_char "010" (get_litex_git_revision posix_host) = false
  /\ exists contents,
       run (build_script (init sample_platform "top")) posix_host
       = (Py.Ok "build_top.sh",
          [EvWrite "build_top.sh" contents (Some false)])
       /\ nth 0 (Py.split "010" contents) EmptyString
          = "# Autogenerated by LiteX / git: 0a1b2c3".
Proof.
  split; [discriminate|]. split; [discriminate|]. split; [reflexivity|].
  destruct (build_script_provenance posix_host sample_platform "top" false
              false false false 1 false) as (contents & rest & Hrun & Hp & _).
  exists contents. split; [exact Hrun|].
  destruct Hp as [_ Hl]; [discriminate | discriminate |].
  exact (Hl eq_refl).
Defined.

(** C9 as stated fails on the batch dialect: the first line of the script is
    [@echo off], which is not the provenance comment. *)
Lemma batch_script_first_line :
  exists contents,
    run (build_script (init sample_platform "top")) windows_host
    = (Py.Ok "build_top.bat", [EvWrite "build_top.bat" contents (Some false)])
    /\ nth 0 (Py.split "010" contents) EmptyString = "@echo off"
    /\ Py.str_contains (nth 0 (Py.split "010" contents) EmptyString)
         "Autogenerated" = false
    /\ nth 1 (Py.split "010" contents) EmptyString
       = "rem Autogenerated by LiteX / git: 0a1b2c3".
Proof.
  eexists. split; [vm_compute; reflexivity|]. repeat split; reflexivity.
Qed.

(* ===================================================================== *)
(** * Placeholders                                                        *)
(* ===================================================================== *)

Lemma yosys_kwargs_None self rf n :
  ~ In n yosys_keys -> yosys_kwargs self rf !! n = None.
Proof.
  intros Hn. unfold yosys_kwargs, yosys_keys in *. cbn [In] in Hn.
  rewrite !lookup_insert_ne by (intros <-; tauto). apply lookup_empty.
Qed.

Lemma build_kwargs_None self fail n :
  ~ In n build_keys -> build_kwargs self fail !! n = None.
Proof.
  intros Hn. unfold build_kwargs, build_keys in *. cbn [In] in Hn.
  rewrite !lookup_insert_ne by (intros <-; tauto). apply lookup_empty.
Qed.

Ltac fields_bound :=
  split; [reflexivity|]; split; [reflexivity|];
  match goal with
  | |- Forall _ ?l => let l' := eval vm_compute in l in change l with l'
  end;
  repeat (apply Forall_cons_2;
          [split; [cbn [In]; tauto | eexists; reflexivity]|]);
  apply Forall_nil_2.

(** Every format string of the class is well formed, has plain fields only,
    and each of its fields is among the keyword arguments supplied. *)
Lemma yosys_template_fields self rf :
  Forall (fun l =>
      snd (Py.parse l) = None
      /\ Py.plain_template l = true
      /\ Forall (fun n => In n yosys_keys
                          /\ is_Some (yosys_kwargs self rf !! n))
           (Py.field_names (fst (Py.parse l))))
    _yosys_template.
Proof.
  unfold _yosys_template, yosys_keys.
  repeat (apply Forall_cons_2; [fields_bound|]). apply Forall_nil_2.
Qed.

Lemma build_template_fields self fail :
  Forall (fun s =>
      snd (Py.parse (s +:+ "{fail_stmt}" +:+ Py.nl)) = None
      /\ Py.plain_template (s +:+ "{fail_stmt}" +:+ Py.nl) = true
      /\ Forall (fun n => In n build_keys
                          /\ is_Some (build_kwargs self fail !! n))
           (Py.field_names (fst (Py.parse (s +:+ "{fail_stmt}" +:+ Py.nl)))))
    _build_template.
Proof.
  unfold _build_template, build_keys.
  repeat (apply Forall_cons_2; [fields_bound|]). apply Forall_nil_2.
Qed.

(** A placeholder without a value in a line of the synthesis template:
    [build_project] raises and writes nothing. *)
Lemma build_project_unbound w self l n :
  In l (yosys_template self) ->
  In n (Py.field_names (fst (Py.parse l))) -> ~ In n yosys_keys ->
  exists e, run (build_project self) w = (Py.Raise e, []).
Proof.
  intros Hl Hn Hk. destruct (yosys_import_sources_total self) as [rf Hrf].
  assert (Hf : exists e, yosys_line self l = Py.Raise e).
  { rewrite (yosys_line_eq _ _ _ Hrf).
    apply (PyFacts.format_unbound _ _ n Hn). by apply yosys_kwargs_None. }
  unfold run, build_project. unfold bind at 1.
  destruct (for_each_raise (yosys_line self) (fun ys r => ys ++ [r])
              (yosys_template self) [] w [] l Hl Hf) as [e ->].
  by exists e.
Qed.

(** The same for a line of the build template and [build_script]. *)
Lemma build_script_unbound w self s n :
  In s (build_template self) ->
  In n (Py.field_names (fst (Py.parse (s +:+ "{fail_stmt}" +:+ Py.nl)))) ->
  ~ In n build_keys ->
  exists e, run (build_script self) w = (Py.Raise e, []).
Proof.
  intros Hs Hn Hk.
  assert (Hf : exists e,
             build_line self (fail_stmt (sys_platform w)) s = Py.Raise e).
  { apply (PyFacts.format_unbound _ _ n Hn). by apply build_kwargs_None. }
  unfold run, build_script.
  unfold bind at 1, ask at 1. unfold bind at 1, ask at 1. unfold bind at 1.
  destruct (for_each_raise (build_line self (fail_stmt (sys_platform w)))
              (fun sc r => sc +:+ r) (build_template self)
              (script_header (sys_platform w) (get_litex_git_revision w))
              w [] s Hs Hf) as [e ->].
  by exists e.
Qed.

(** The templates have no escaped braces: a brace in a rendered line comes
    from a supplied value. *)
Lemma rendered_lines_brace_free self p c :
  c = "{"%char \/ c = "}"%char ->
  Py.str_in_char c (_build_name self) = false ->
  Py.str_in_char c (device (platform self)) = false ->
  Forall (fun line => Py.str_in_char c line = false)
    [synth_nexus_cmd self;
     yosys_cmd self +:+ fail_stmt p +:+ Py.nl;
     nextpnr_cmd self +:+ fail_stmt p +:+ Py.nl;
     pack_cmd self +:+ fail_stmt p +:+ Py.nl].
Proof.
  intros Hc Hbn Hdev.
  assert (Hseed : Py.str_in_char c (Py.str (Py.VInt (_seed self))) = false).
  { apply PyFacts.str_int_chars; destruct Hc as [-> | ->]; done. }
  assert (Hfail : Py.str_in_char c (fail_stmt p +:+ Py.nl) = false).
  { unfold fail_stmt. destruct (is_windows p), Hc as [-> | ->]; reflexivity. }
  assert (Hd : Py.str_in_char c (device_arg self) = false).
  { unfold device_arg. rewrite PyFacts.str_in_char_app, Hdev.
    destruct (_es_device self), Hc as [-> | ->]; reflexivity. }
  assert (Hflags : Py.str_in_char c (nwl_arg self) = false
                   /\ Py.str_in_char c (abc_arg self) = false
                   /\ Py.str_in_char c (timefail_arg self) = false
                   /\ Py.str_in_char c (ignoreloops_arg self) = false).
  { unfold nwl_arg, abc_arg, timefail_arg, ignoreloops_arg.
    destruct (_nowidelut self), (_abc9 self), (_timingstrict self),
      (_ignoreloops self), Hc as [-> | ->]; repeat split; reflexivity. }
  destruct Hflags as (Hn & Ha & Ht & Hi).
  assert (Hlit : forall s,
             Py.str_in_char "{" s = false -> Py.str_in_char "}" s = false ->
             Py.str_in_char c s = false).
  { intros s H1 H2. by destruct Hc as [-> | ->]. }
  assert (Hext : forall s,
             Py.str_in_char "{" s = false -> Py.str_in_char "}" s = false ->
             Py.str_in_char c (_build_name self +:+ s) = false).
  { intros s H1 H2. by rewrite PyFacts.str_in_char_app, Hbn, (Hlit s H1 H2). }
  assert (Hcmds : Forall (fun cmd => Py.str_in_char c cmd = false)
                    [synth_nexus_cmd self; yosys_cmd self; nextpnr_cmd self;
                     pack_cmd self]).
  { repeat apply Forall_cons_2; try apply Forall_nil_2;
      (apply PyFacts.str_in_char_join; [by apply Hlit|]);
      repeat apply Forall_cons_2; try apply Forall_nil_2;
      first [ done | by apply Hlit | by apply Hext ]. }
  rewrite !Forall_cons in Hcmds. destruct Hcmds as (Hs & Hy & Hx & Hp & _).
  repeat apply Forall_cons_2; try apply Forall_nil_2; try done;
    rewrite PyFacts.str_in_char_app, Hfail, orb_false_r; done.
Qed.

(** C7. With the templates of the class, for every combination of the
    options, every build name and every imported-sources text: each line of
    the synthesis template and of the build template is well formed, each
    of its placeholders has a value among the keyword arguments, and the
    line is rendered with the values in place; [build_project] and
    [build_script] return, having written exactly these rendered lines (the
    six lines joined by line feeds; the header and the three lines); and a
    brace in a rendered line or in a written text can only come from a
    supplied value (build name, device name, imported sources, revision).
    For any templates with plain placeholders, a placeholder without a
    supplied value makes the rendering raise, with nothing written. *)
Theorem templates_fully_substituted w pf bn nowidelut abc9 timingstrict
    ignoreloops seed es_device :
  let self :=
    build (init pf bn) nowidelut abc9 timingstrict ignoreloops seed es_device in
  let p := sys_platform w in
  let rev := get_litex_git_revision w in
  let fail := fail_stmt p in
  let ys_lines := fun rf : string =>
    ["verilog_defaults -push";
     "verilog_defaults -add -defer";
     rf;
     "verilog_defaults -pop";
     "attrmap -tocase keep -imap keep=" +:+ Py.dquote +:+ "true"
       +:+ Py.dquote +:+ " keep=1 -imap keep=" +:+ Py.dquote
       +:+ "false" +:+ Py.dquote +:+ " keep=0 -remove keep=0";
     synth_nexus_cmd self] in
  let script_lines :=
    [yosys_cmd self +:+ fail +:+ Py.nl;
     nextpnr_cmd self +:+ fail +:+ Py.nl;
     pack_cmd self +:+ fail +:+ Py.nl] in
  let script_text :=
    script_header p rev +:+
    (yosys_cmd self +:+ fail +:+ Py.nl) +:+
    (nextpnr_cmd self +:+ fail +:+ Py.nl) +:+
    (pack_cmd self +:+ fail +:+ Py.nl) in
  let brace := fun c : ascii => c = "{"%char \/ c = "}"%char in
  (forall rf,
     Forall (fun l =>
         snd (Py.parse l) = None
         /\ Forall (fun n => is_Some (yosys_kwargs self rf !! n))
              (Py.field_names (fst (Py.parse l))))
       (yosys_template self)
     /\ Forall2 (fun l r => Py.format l [] (yosys_kwargs self rf) = Py.Ok r)
          (yosys_template self) (ys_lines rf))
  /\ (exists rf,
        _yosys_import_sources self = Py.Ok rf
        /\ (forall l, yosys_line self l = Py.format l [] (yosys_kwargs self rf))
        /\ run (build_project self) w
           = (Py.Ok tt,
              [EvWrite (bn +:+ ".ys") (Py.join Py.nl (ys_lines rf)) None]))
  /\ Forall (fun s =>
         snd (Py.parse (s +:+ "{fail_stmt}" +:+ Py.nl)) = None
         /\ Forall (fun n => is_Some (build_kwargs self fail !! n))
              (Py.field_names
                 (fst (Py.parse (s +:+ "{fail_stmt}" +:+ Py.nl)))))
       (build_template self)
  /\ Forall2 (fun s r => build_line self fail s = Py.Ok r)
       (build_template self) script_lines
  /\ run (build_script self) w
     = (Py.Ok ("build_" +:+ bn +:+ script_ext p),
        [EvWrite ("build_" +:+ bn +:+ script_ext p) script_text (Some false)])
  /\ (forall c, brace c ->
        Py.str_in_char c bn = false -> Py.str_in_char c (device pf) = false ->
        Forall (fun line => Py.str_in_char c line = false)
          (synth_nexus_cmd self :: script_lines))
  /\ (forall c rf, brace c ->
        Py.str_in_char c bn = false -> Py.str_in_char c rf = false ->
        Py.str_in_char c (Py.join Py.nl (ys_lines rf)) = false)
  /\ (forall c, brace c ->
        Py.str_in_char c bn = false -> Py.str_in_char c (device pf) = false ->
        Py.str_in_char c rev = false ->
        Py.str_in_char c script_text = false)
  /\ (forall tpl kw n,
        Py.plain_template tpl = true ->
        In n (Py.field_names (fst (Py.parse tpl))) -> kw !! n = None ->
        exists e, Py.format tpl [] kw = Py.Raise e)
  /\ (forall other l n,
        Forall (fun l => Py.plain_template l = true) (yosys_template other) ->
        In l (yosys_template other) ->
        In n (Py.field_names (fst (Py.parse l))) -> ~ In n yosys_keys ->
        exists e, run (build_project other) w = (Py.Raise e, []))
  /\ (forall other s n,
        Forall (fun s => Py.plain_template (s +:+ "{fail_stmt}" +:+ Py.nl) = true)
          (build_template other) ->
        In s (build_template other) ->
        In n (Py.field_names
                (fst (Py.parse (s +:+ "{fail_stmt}" +:+ Py.nl)))) ->
        ~ In n build_keys ->
        exists e, run (build_script other) w = (Py.Raise e, [])).
Proof.
  intros self p rev fail ys_lines script_lines script_text brace.
  assert (Hlines : forall c, brace c ->
            Py.str_in_char c bn = false -> Py.str_in_char c (device pf) = false ->
            Forall (fun line => Py.str_in_char c line = false)
              (synth_nexus_cmd self :: script_lines)).
  { intros c Hc Hbn Hdev.
    by apply (rendered_lines_brace_free self p c). }
  repeat apply conj.
  - intros rf. split.
    + eapply Forall_impl; [apply (yosys_template_fields self rf)|].
      intros l (He & _ & Hf). split; [done|].
      eapply Forall_impl; [apply Hf|]. by intros n [_ Hn].
    + apply (yosys_template_render self rf).
  - destruct (yosys_import_sources_total self) as [rf Hrf]. exists rf.
    split; [done|]. split; [intros l; by apply yosys_line_eq|].
    apply (build_project_run w self rf eq_refl Hrf).
  - eapply Forall_impl; [apply (build_template_fields self fail)|].
    intros s (He & _ & Hf). split; [done|].
    eapply Forall_impl; [apply Hf|]. by intros n [_ Hn].
  - apply build_line_render.
  - apply (build_script_run w self eq_refl).
  - exact Hlines.
  - intros c rf Hc Hbn Hrf.
    assert (Hsynth : Py.str_in_char c (synth_nexus_cmd self) = false).
    { assert (Hs : forall s,
                Py.str_in_char "{" s = false -> Py.str_in_char "}" s = false ->
                Py.str_in_char c s = false)
        by (intros s H1 H2; by destruct Hc as [-> | ->]).
      apply PyFacts.str_in_char_join; [by apply Hs|].
      unfold nwl_arg, abc_arg, self. cbn [_nowidelut _abc9 _build_name build init].
      repeat apply Forall_cons_2; try apply Forall_nil_2;
        rewrite ?PyFacts.str_in_char_app, ?Hbn;
        try (by apply Hs); try done.
      + destruct nowidelut; by apply Hs.
      + destruct abc9; by apply Hs. }
    apply PyFacts.str_in_char_join; [by destruct Hc as [-> | ->]|].
    unfold ys_lines.
    repeat apply Forall_cons_2; try apply Forall_nil_2; try done;
      by destruct Hc as [-> | ->].
  - intros c Hc Hbn Hdev Hrev.
    pose proof (Hlines c Hc Hbn Hdev) as H.
    unfold script_lines in H. rewrite !Forall_cons in H.
    destruct H as (_ & Hy & Hn & Hp & _).
    unfold script_text.
    rewrite (PyFacts.str_in_char_app c (script_header p rev)),
      (PyFacts.str_in_char_app c (yosys_cmd self +:+ fail +:+ Py.nl)),
      (PyFacts.str_in_char_app c (nextpnr_cmd self +:+ fail +:+ Py.nl)),
      Hy, Hn, Hp.
    rewrite !orb_false_r. unfold script_header.
    destruct (is_windows p); rewrite !PyFacts.str_in_char_app, Hrev;
      by destruct Hc as [-> | ->].
  - intros tpl kw n _. apply PyFacts.format_unbound.
  - intros other l n _. apply build_project_unbound.
  - intros other s n _. apply build_script_unbound.
Qed.

Lemma templates_fully_substituted_witness :
  Forall (fun l => Py.plain_template l = true) (yosys_template custom_top_build)
  /\ In "synth_nexus -json {build_name}.json -top {top_module}"
       (yosys_template custom_top_build)
  /\ In "top_module"
       (Py.field_names
          (fst (Py.parse "synth_nexus -json {build_name}.json -top {top_module}")))
  /\ ~ In "top_module" yosys_keys
  /\ exists e, run (build_project custom_top_build) posix_host = (Py.Raise e, []).
Proof.
  assert (H0 : Forall (fun l => Py.plain_template l = true)
                 (yosys_template custom_top_build))
    by (apply Forall_cons_2; [reflexivity | apply Forall_nil_2]).
  assert (H1 : In "synth_nexus -json {build_name}.json -top {top_module}"
                 (yosys_template custom_top_build)) by (left; reflexivity).
  assert (H2 : In "top_module"
                 (Py.field_names (fst (Py.parse
                    "synth_nexus -json {build_name}.json -top {top_module}"))))
    by (right; left; reflexivity).
  assert (H3 : ~ In "top_module" yosys_keys).
  { unfold yosys_keys. cbn [In]. intros [H|[H|[H|[H|[]]]]]; discriminate H. }
  split; [exact H0|]. split; [exact H1|]. split; [exact H2|]. split; [exact H3|].
  destruct (templates_fully_substituted posix_host sample_platform "top"
              false false false false 1 false)
    as (_ & _ & _ & _ & _ & _ & _ & _ & _ & Hproject & _).
  exact (Hproject custom_top_build _ _ H0 H1 H2 H3).
Defined.

Example custom_top_build_key_error :
  run (build_project custom_top_build) posix_host
  = (Py.Raise (Py.Exc Py.KeyError "top_module"), []).
Proof. vm_compute. reflexivity. Qed.

(* ===================================================================== *)
(** * Output files                                                        *)
(* ===================================================================== *)

(** The paths of [output_paths] are the ones the methods write or return. *)
Lemma output_paths_written w pf bn :
  let self := init pf bn in
  let p := sys_platform w in
  fst (run (build_io_constraints self) w) = Py.Ok (bn +:+ ".pdc", "PDC")
  /\ (exists c, writes (snd (run (build_project self) w)) = [(bn +:+ ".ys", c)])
  /\ (exists c, writes (snd (run (build_script self) w))
                = [("build_" +:+ bn +:+ script_ext p, c)])
  /\ In (bn +:+ ".pdc") (output_paths p self)
  /\ In (bn +:+ ".ys") (output_paths p self)
  /\ In ("build_" +:+ bn +:+ script_ext p) (output_paths p self).
Proof.
  intros self p. split; [reflexivity|]. split.
  { destruct (yosys_import_sources_total self) as [rf Hrf].
    rewrite (build_project_run w self rf eq_refl Hrf). by eexists. }
  split.
  { rewrite (build_script_run w self eq_refl). by eexists. }
  unfold output_paths. cbn [In]. tauto.
Qed.

Ltac last_chars_differ H :=
  apply (f_equal Py.last_char) in H;
  rewrite !PyFacts.last_char_app_or in H;
  discriminate H.

Ltac same_length_tails H Hne :=
  apply PyFacts.app_inv_len in H; [|reflexivity];
  let Ha := fresh in let He := fresh in
  destruct H as [Ha He];
  first [ discriminate He
        | exfalso; apply Hne; congruence
        | exfalso; apply Hne; apply (inj (String.app "build_")) in Ha;
          congruence ].

(** The closed-form paths are functions of the build name (and, for the
    driver script, of the dialect) only, and those of two different build
    names have no path in common. *)
Lemma output_paths_by_name p1 p2 self1 self2 :
  (_build_name self1 = _build_name self2 -> script_ext p1 = script_ext p2 ->
   output_paths p1 self1 = output_paths p2 self2)
  /\ (_build_name self1 <> _build_name self2 ->
      forall path,
        In path (output_paths p1 self1) -> ~ In path (output_paths p2 self2)).
Proof.
  split.
  { intros Hn He. unfold output_paths. by rewrite Hn, He. }
  intros Hne path H1 H2. unfold output_paths, script_ext in *.
  set (a := _build_name self1) in *. set (b := _build_name self2) in *.
  cbn [In] in H1, H2.
  destruct (is_windows p1), (is_windows p2);
    repeat match goal with
    | H : _ \/ _ |- _ => destruct H as [H|H]
    | H : False |- _ => destruct H
    end; subst path;
    rewrite <- ?PyFacts.app_assoc in H2;
    first [ last_chars_differ H2 | same_length_tails H2 Hne ].
Qed.

(* ===================================================================== *)
(** * Further properties: effects of the methods                          *)
(* ===================================================================== *)

(** [run_script] from any point of a run: what it appends to the trace. *)
Lemma run_script_from w tr script :
  run_script script w tr =
  match which w "yosys", which w "nextpnr-nexus" with
  | None, _ =>
      (Py.Raise (Py.Exc Py.OSError env_error_msg), tr ++ [EvWhich "yosys"])
  | Some _, None =>
      (Py.Raise (Py.Exc Py.OSError env_error_msg),
       (tr ++ [EvWhich "yosys"]) ++ [EvWhich "nextpnr-nexus"])
  | Some _, Some _ =>
      let argv := shell_of (sys_platform w) ++ [script] in
      (if (subprocess_call w argv =? 0)%Z then Py.Ok tt
       else Py.Raise (Py.Exc Py.OSError exec_error_msg),
       ((tr ++ [EvWhich "yosys"]) ++ [EvWhich "nextpnr-nexus"])
         ++ [EvSpawn argv])
  end.
Proof.
  unfold run_script, shutil_which, call, bind, ask, emit, ret, raise.
  destruct (which w "yosys") as [y|]; cbn [is_None]; [|reflexivity].
  destruct (which w "nextpnr-nexus") as [n|]; cbn [is_None]; [|reflexivity].
  cbv zeta. by destruct (subprocess_call w _ =? 0)%Z.
Qed.

(** X1. [run_script] spawns at most one process: none when a tool is
    missing, and otherwise exactly the interpreter of the platform with the
    script name as one, last, argument. It writes no file. *)
Theorem run_script_spawns w script :
  spawns (snd (run (run_script script) w))
  = (if is_None (which w "yosys") || is_None (which w "nextpnr-nexus")
     then []
     else [shell_of (sys_platform w) ++ [script]])
  /\ writes (snd (run (run_script script) w)) = []
  /\ (which w "yosys" = None ->
      snd (run (run_script script) w) = [EvWhich "yosys"]).
Proof.
  unfold run. rewrite run_script_from.
  destruct (which w "yosys"), (which w "nextpnr-nexus"); repeat split;
    try reflexivity; try discriminate.
Qed.

Lemma run_script_spawns_witness :
  which host_without_yosys "yosys" = None
  /\ snd (run (run_script "my build.sh") host_without_yosys)
     = [EvWhich "yosys"]
  /\ spawns (snd (run (run_script "my build.sh") host_without_nextpnr)) = []
  /\ spawns (snd (run (run_script "my build.sh") posix_host))
     = [["bash"; "my build.sh"]].
Proof.
  split; [reflexivity|]. split.
  { exact (proj2 (proj2 (run_script_spawns host_without_yosys "my build.sh"))
             eq_refl). }
  split.
  - exact (proj1 (run_script_spawns host_without_nextpnr "my build.sh")).
  - exact (proj1 (run_script_spawns posix_host "my build.sh")).
Defined.

(** A loop that only renders leaves the trace as it found it. *)
Lemma for_each_pure {A S : Type} (f : A -> Py.result string)
    (g : S -> string -> S) xs acc w tr :
  exists r,
    for_each xs (fun acc x => r <- lift (f x) ;; ret (g acc r)) acc w tr
    = (r, tr).
Proof.
  revert acc. induction xs as [|x xs IH]; intros acc; [by eexists|].
  cbn [for_each]. unfold bind at 1. unfold bind at 1, lift, ret.
  destruct (f x) as [r|e]; [apply IH | by eexists].
Qed.

(** X2. Whatever the templates of the object are, [build_project] and
    [build_script] either raise having written nothing, or return having
    written exactly their one file, [<name>.ys] and
    [build_<name><ext>]; they never probe the search path and never spawn
    a process, and [build_script] returns the path it wrote. *)
Theorem script_writers_all_or_nothing w self :
  ((exists e, run (build_project self) w = (Py.Raise e, []))
   \/ (exists text,
         run (build_project self) w
         = (Py.Ok tt, [EvWrite (_build_name self +:+ ".ys") text None])))
  /\ ((exists e, run (build_script self) w = (Py.Raise e, []))
      \/ (exists text,
            let file :=
              "build_" +:+ _build_name self +:+ script_ext (sys_platform w) in
            run (build_script self) w
            = (Py.Ok file, [EvWrite file text (Some false)]))).
Proof.
  split.
  - destruct (for_each_pure (yosys_line self) (fun ys r => ys ++ [r])
                (yosys_template self) [] w []) as [[ys|e] H].
    + right. exists (Py.join Py.nl ys).
      unfold run, build_project. unfold bind at 1. by rewrite H.
    + left. exists e.
      unfold run, build_project. unfold bind at 1. by rewrite H.
  - destruct (for_each_pure (build_line self (fail_stmt (sys_platform w)))
                (fun sc r => sc +:+ r) (build_template self)
                (script_header (sys_platform w) (get_litex_git_revision w))
                w []) as [[text|e] H].
    + right. exists text. cbv zeta. unfold run, build_script.
      unfold bind at 1, ask at 1. unfold bind at 1, ask at 1.
      unfold bind at 1. by rewrite H.
    + left. exists e. unfold run, build_script.
      unfold bind at 1, ask at 1. unfold bind at 1, ask at 1.
      unfold bind at 1. by rewrite H.
Qed.

(** X3. Generating the driver script and running what [build_script]
    returns, with both tools found: one file is written, then both tools
    are probed, then one process is spawned, the interpreter that goes with
    the extension of the script, [cmd /c build_<name>.bat] on
    [win32]/[cygwin] and [bash build_<name>.sh] elsewhere; the result is
    decided by the exit status alone. *)
Theorem build_and_run_dialect w pf bn nowidelut abc9 timingstrict ignoreloops
    seed es_device y n :
  let self :=
    build (init pf bn) nowidelut abc9 timingstrict ignoreloops seed es_device in
  let p := sys_platform w in
  which w "yosys" = Some y -> which w "nextpnr-nexus" = Some n ->
  exists text argv,
    argv = (if is_windows p then ["cmd"; "/c"; "build_" +:+ bn +:+ ".bat"]
            else ["bash"; "build_" +:+ bn +:+ ".sh"])
    /\ run (build_and_run self) w
       = (if (subprocess_call w argv =? 0)%Z then Py.Ok tt
          else Py.Raise (Py.Exc Py.OSError exec_error_msg),
          [EvWrite (List.last argv EmptyString) text (Some false);
           EvWhich "yosys"; EvWhich "nextpnr-nexus"; EvSpawn argv]).
Proof.
  intros self p Hy Hn.
  pose proof (build_script_run w self eq_refl) as Hb. cbv zeta in Hb.
  unfold run in *. unfold build_and_run, bind. rewrite Hb.
  rewrite run_script_from, Hy, Hn. cbv zeta.
  change (_build_name self) with bn. fold p.
  do 2 eexists. split; [reflexivity|].
  unfold shell_of, script_ext. destruct (is_windows p); reflexivity.
Qed.

Lemma build_and_run_dialect_witness :
  which windows_host "yosys" = Some "/usr/bin/tool"
  /\ which windows_host "nextpnr-nexus" = Some "/usr/bin/tool"
  /\ exists text,
       run (build_and_run (init sample_platform "top")) windows_host
       = (Py.Ok tt,
          [EvWrite "build_top.bat" text (Some false);
           EvWhich "yosys"; EvWhich "nextpnr-nexus";
           EvSpawn ["cmd"; "/c"; "build_top.bat"]]).
Proof.
  split; [reflexivity|]. split; [reflexivity|].
  destruct (build_and_run_dialect windows_host sample_platform "top" false
              false false false 1 false "/usr/bin/tool" "/usr/bin/tool"
              eq_refl eq_refl) as (text & argv & -> & H).
  exists text. exact H.
Defined.

(* ===================================================================== *)
(** * Further properties: what the scripts depend on                      *)
(* ===================================================================== *)

Lemma yosys_import_sources_closed self :
  _yosys_import_sources self =
  Py.Ok (Py.join Py.nl
    (map (fun sf =>
       "read_" +:+
       (if String.eqb (language sf) "systemverilog" then "verilog -sv"
        else language sf) +:+ _yosys_includes self +:+ " " +:+ filename sf)
       (sources (platform self)))).
Proof.
  unfold _yosys_import_sources, _yosys_reads. by rewrite yosys_reads_loop.
Qed.

(** X4. The include flags of the read directives are the include paths of
    the platform in their order, each behind [ -I]; and the imported text
    is a function of the include paths and of the file names and languages
    of the sources alone: the library and the copy flag of a source are
    ignored. *)
Theorem yosys_import_sources_inputs self1 self2 :
  _yosys_includes self1
  = String.concat EmptyString
      (map (fun path => " -I" +:+ path)
         (verilog_include_paths (platform self1)))
  /\ (verilog_include_paths (platform self1)
      = verilog_include_paths (platform self2) ->
      map (fun sf => (filename sf, language sf)) (sources (platform self1))
      = map (fun sf => (filename sf, language sf)) (sources (platform self2)) ->
      _yosys_import_sources self1 = _yosys_import_sources self2).
Proof.
  split.
  - unfold _yosys_includes. by rewrite yosys_includes_loop.
  - intros Hp Hs. rewrite !yosys_import_sources_closed.
    assert (Hi : _yosys_includes self1 = _yosys_includes self2).
    { unfold _yosys_includes. by rewrite Hp. }
    rewrite Hi. do 2 f_equal.
    set (g := fun fl : string * string =>
           "read_" +:+
           (if String.eqb (snd fl) "systemverilog" then "verilog -sv"
            else snd fl) +:+ _yosys_includes self2 +:+ " " +:+ fst fl).
    transitivity
      (map g (map (fun sf => (filename sf, language sf))
                (sources (platform self1)))).
    { by rewrite map_map. }
    rewrite Hs. by rewrite map_map.
Qed.

Lemma yosys_import_sources_inputs_witness :
  verilog_include_paths vhdl_platform
  = verilog_include_paths vhdl_platform_other_library
  /\ map (fun sf => (filename sf, language sf)) (sources vhdl_platform)
     = map (fun sf => (filename sf, language sf))
         (sources vhdl_platform_other_library)
  /\ _yosys_import_sources (init vhdl_platform "top")
     = _yosys_import_sources (init vhdl_platform_other_library "top")
  /\ _yosys_import_sources (init vhdl_platform "top")
     = Py.Ok ("read_vhdl -Irtl -Irtl/inc core.vhd" +:+ Py.nl +:+
              "read_verilog -Irtl -Irtl/inc top.v").
Proof.
  split; [reflexivity|]. split; [reflexivity|]. split.
  - exact (proj2 (yosys_import_sources_inputs (init vhdl_platform "top")
                    (init vhdl_platform_other_library "top"))
             eq_refl eq_refl).
  - reflexivity.
Defined.

(** X5. The synthesis script depends on the build name, the sources, the
    include paths and the two synthesis options only: not on the host, the
    device, the seed or the place-and-route options. The driver script
    depends on the host, the build name, the device and the place-and-route
    options only: not on the sources, the include paths or the synthesis
    options. *)
Theorem scripts_separate_concerns w w' pf bn nowidelut abc9 timingstrict
    ignoreloops seed es_device device' timingstrict' ignoreloops' seed'
    es_device' nowidelut' abc9' sources' paths' :
  run (build_project
         (build (init pf bn) nowidelut abc9 timingstrict ignoreloops seed
            es_device)) w
  = run (build_project
           (build (init (with_device pf device') bn) nowidelut abc9
              timingstrict' ignoreloops' seed' es_device')) w'
  /\ run (build_script
            (build (init pf bn) nowidelut abc9 timingstrict ignoreloops seed
               es_device)) w
     = run (build_script
              (build (init (with_sources pf sources' paths') bn) nowidelut'
                 abc9' timingstrict ignoreloops seed es_device)) w.
Proof.
  split.
  - set (self := build (init pf bn) nowidelut abc9 timingstrict ignoreloops
                   seed es_device).
    set (self' := build (init (with_device pf device') bn) nowidelut abc9
                    timingstrict' ignoreloops' seed' es_device').
    destruct (yosys_import_sources_total self) as [rf Hrf].
    assert (Hrf' : _yosys_import_sources self' = Py.Ok rf) by exact Hrf.
    rewrite (build_project_run w self rf eq_refl Hrf).
    rewrite (build_project_run w' self' rf eq_refl Hrf').
    reflexivity.
  - rewrite (build_script_run w
               (build (init pf bn) nowidelut abc9 timingstrict ignoreloops
                  seed es_device) eq_refl).
    rewrite (build_script_run w
               (build (init (with_sources pf sources' paths') bn) nowidelut'
                  abc9' timingstrict ignoreloops seed es_device) eq_refl).
    reflexivity.
Qed.

(** X6. Setting [es_device] is the same as naming the device with the
    suffix [ES]: both give the same driver script; and without
    [es_device] the device argument is the device name, unchanged. *)
Theorem es_device_is_suffix w pf bn nowidelut abc9 timingstrict ignoreloops
    seed :
  run (build_script
         (build (init pf bn) nowidelut abc9 timingstrict ignoreloops seed true))
      w
  = run (build_script
           (build (init (with_device pf (device pf +:+ "ES")) bn) nowidelut
              abc9 timingstrict ignoreloops seed false)) w
  /\ device_arg
       (build (init pf bn) nowidelut abc9 timingstrict ignoreloops seed false)
     = device pf.
Proof.
  split.
  - rewrite (build_script_run w
               (build (init pf bn) nowidelut abc9 timingstrict ignoreloops
                  seed true) eq_refl).
    rewrite (build_script_run w
               (build (init (with_device pf (device pf +:+ "ES")) bn)
                  nowidelut abc9 timingstrict ignoreloops seed false) eq_refl).
    cbv zeta. unfold nextpnr_cmd, device_arg. cbn [_es_device platform device build init
      with_device]. by rewrite PyFacts.app_nil_r.
  - unfold device_arg. cbn [_es_device platform device build init].
    apply PyFacts.app_nil_r.
Qed.

(* ===================================================================== *)
(** * Further properties: the arguments of the rendered commands          *)
(* ===================================================================== *)

Lemma split_go_nosep sep s cur :
  Py.str_in_char sep s = false -> Py.split_go sep s cur = [cur +:+ s].
Proof.
  revert cur. induction s as [|x s IH]; intros cur Hs.
  - by rewrite PyFacts.app_nil_r.
  - simpl in Hs. apply orb_false_iff in Hs as [Hx Hs].
    cbn [Py.split_go]. rewrite Ascii.eqb_sym, Hx, (IH _ Hs). unfold Py.snoc.
    by rewrite PyFacts.app_assoc.
Qed.

Lemma split_go_nonempty sep s cur : Py.split_go sep s cur <> [].
Proof.
  revert cur. induction s as [|x s IH]; intros cur; [done|].
  cbn [Py.split_go]. destruct (Ascii.eqb x sep); [done | apply IH].
Qed.

(** Behind the last separator comes the last field. *)
Lemma split_go_last sep a s cur :
  Py.str_in_char sep s = false ->
  List.last (Py.split_go sep (a +:+ String sep s) cur) EmptyString = s.
Proof.
  intros Hs. revert cur. induction a as [|x a IH]; intros cur.
  - rewrite PyFacts.app_nil_l. cbn [Py.split_go]. rewrite Ascii.eqb_refl.
    by rewrite (split_go_nosep _ _ _ Hs).
  - rewrite PyFacts.app_cons. cbn [Py.split_go].
    destruct (Ascii.eqb x sep); [|apply IH].
    specialize (IH EmptyString).
    destruct (Py.split_go sep (a +:+ String sep s) EmptyString) eqn:E.
    + by apply split_go_nonempty in E.
    + exact IH.
Qed.

Lemma join_snoc sep ls x :
  ls <> [] -> Py.join sep (ls ++ [x]) = Py.join sep ls +:+ sep +:+ x.
Proof.
  unfold Py.join. induction ls as [|a [|b ls] IH]; intros Hne; [done|done|].
  change (String.concat sep ((a :: b :: ls) ++ [x]))
    with (a +:+ sep +:+ String.concat sep ((b :: ls) ++ [x])).
  rewrite IH by done.
  change (String.concat sep (a :: b :: ls))
    with (a +:+ sep +:+ String.concat sep (b :: ls)).
  by rewrite !PyFacts.app_assoc.
Qed.

(** Splitting undoes joining when no field has the separator. *)
Lemma split_join sep ls :
  ls <> [] ->
  Forall (fun s => Py.str_in_char sep s = false) ls ->
  Py.split sep (Py.join (String sep EmptyString) ls) = ls.
Proof.
  intros Hne H. unfold Py.split, Py.join.
  induction H as [|a ls Ha Hls IH]; [done|].
  destruct ls as [|b ls].
  - cbn [String.concat]. by rewrite (split_go_nosep _ _ _ Ha).
  - change (String.concat (String sep EmptyString) (a :: b :: ls))
      with (a +:+ String sep
              (String.concat (String sep EmptyString) (b :: ls))).
    rewrite (PyFacts.split_go_sep _ _ _ _ Ha). by rewrite IH.
Qed.

(** [int(str(z))] is [z]. *)
Lemma py_int_str z : py_int (Py.str (Py.VInt z)) = Some z.
Proof.
  unfold py_int, Py.str. rewrite DecimalString.NilZero.isi.
  - cbn [option_map]. by rewrite DecimalZ.of_to.
  - destruct z as [|q|q]; simpl; [discriminate| |discriminate].
    intros [= H]. by apply DecimalPos.Unsigned.to_uint_nonnil in H.
  - destruct z as [|q|q]; simpl; [discriminate|discriminate|].
    intros [= H]. by apply DecimalPos.Unsigned.to_uint_nonnil in H.
Qed.

(** X7. Whatever the build name and the device name are, the last
    blank-separated argument of the rendered [nextpnr-nexus] command is the
    seed as a decimal numeral (with a minus sign if it is negative), which
    reads back as the seed of the build; so builds with different seeds
    have different commands. *)
Theorem nextpnr_seed_argument self fail :
  Py.format nextpnr_template [] (build_kwargs self fail)
  = Py.Ok (nextpnr_cmd self)
  /\ List.last (Py.split " " (nextpnr_cmd self)) EmptyString
     = Py.str (Py.VInt (_seed self))
  /\ py_int (List.last (Py.split " " (nextpnr_cmd self)) EmptyString)
     = Some (_seed self)
  /\ (forall other,
        _seed other <> _seed self -> nextpnr_cmd other <> nextpnr_cmd self).
Proof.
  assert (Hlast : forall t,
            List.last (Py.split " " (nextpnr_cmd t)) EmptyString
            = Py.str (Py.VInt (_seed t))).
  { intros t. unfold nextpnr_cmd.
    change ["nextpnr-nexus"; "--json"; _build_name t +:+ ".json"; "--pdc";
            _build_name t +:+ ".pdc"; "--fasm"; _build_name t +:+ ".fasm";
            EmptyString; EmptyString; EmptyString; EmptyString; "--device";
            device_arg t; timefail_arg t; ignoreloops_arg t; "--seed";
            Py.str (Py.VInt (_seed t))]
      with (["nextpnr-nexus"; "--json"; _build_name t +:+ ".json"; "--pdc";
             _build_name t +:+ ".pdc"; "--fasm"; _build_name t +:+ ".fasm";
             EmptyString; EmptyString; EmptyString; EmptyString; "--device";
             device_arg t; timefail_arg t; ignoreloops_arg t; "--seed"]
            ++ [Py.str (Py.VInt (_seed t))]).
    rewrite join_snoc by done. unfold Py.split.
    apply split_go_last. by apply PyFacts.str_int_chars. }
  split.
  { pose proof (build_template_render self fail) as H.
    apply Forall2_cons_1 in H as [_ H]. by apply Forall2_cons_1 in H as [H _]. }
  split; [apply Hlast|]. split; [rewrite Hlast; apply py_int_str|].
  intros other Hne Heq. apply Hne.
  apply (f_equal (fun c => py_int (List.last (Py.split " " c) EmptyString)))
    in Heq.
  rewrite !Hlast, !py_int_str in Heq. congruence.
Qed.

Lemma nextpnr_seed_argument_witness :
  _seed (build (init sample_platform "top") false false false false 7 false)
  <> _seed (build (init sample_platform "top") false false false false (-3)
              false)
  /\ nextpnr_cmd
       (build (init sample_platform "top") false false false false 7 false)
     <> nextpnr_cmd
          (build (init sample_platform "top") false false false false (-3)
             false)
  /\ List.last
       (Py.split " "
          (nextpnr_cmd
             (build (init sample_platform "top") false false false false (-3)
                false))) EmptyString = "-3".
Proof.
  assert (Hne : _seed (build (init sample_platform "top") false false false
                         false 7 false)
                <> _seed (build (init sample_platform "top") false false false
                            false (-3) false)) by discriminate.
  split; [exact Hne|]. split.
  - exact (proj2 (proj2 (proj2 (nextpnr_seed_argument
             (build (init sample_platform "top") false false false false (-3)
                false) EmptyString))) _ Hne).
  - exact (proj1 (proj2 (nextpnr_seed_argument
             (build (init sample_platform "top") false false false false (-3)
                false) EmptyString))).
Defined.

Lemma arg_after_hit opt v r : arg_after opt (opt :: v :: r) = Some v.
Proof. cbn [arg_after]. by rewrite String.eqb_refl. Qed.

Lemma arg_after_skip opt t r :
  t <> opt -> arg_after opt (t :: r) = arg_after opt r.
Proof. intros H. cbn [arg_after]. apply String.eqb_neq in H. by rewrite H. Qed.

Ltac arg_step :=
  first
    [ rewrite arg_after_hit
    | rewrite arg_after_skip
        by (first [ discriminate
                  | let H := fresh in intros H; last_chars_differ H ]) ].

Ltac space_free Hbn Hdev :=
  repeat apply Forall_cons_2; try apply Forall_nil_2;
  rewrite ?PyFacts.str_in_char_app, ?Hbn, ?Hdev;
  first [ reflexivity | by apply PyFacts.str_int_chars ].

(** X8. For a build name and a device name without blanks, the rendered
    commands split at blanks into the arguments the templates spell out,
    and each stage reads the file the stage before it writes: [yosys] runs
    the script that [build_project] writes, [nextpnr-nexus] reads the
    netlist that [synth_nexus] writes and the constraint file that
    [build_io_constraints] returns, [prjoxide pack] reads the file that
    [nextpnr-nexus] writes. *)
Theorem pipeline_hand_off w pf bn nowidelut abc9 timingstrict ignoreloops seed
    es_device :
  let self :=
    build (init pf bn) nowidelut abc9 timingstrict ignoreloops seed es_device in
  Py.str_in_char " " bn = false ->
  Py.str_in_char " " (device pf) = false ->
  exists synth yosys nextpnr pack ys_text,
    yosys_line self synth_nexus_template = Py.Ok synth
    /\ Forall2
         (fun s r =>
            Py.format s [] (build_kwargs self (fail_stmt (sys_platform w)))
            = Py.Ok r)
         _build_template [yosys; nextpnr; pack]
    /\ run (build_project self) w
       = (Py.Ok tt, [EvWrite (bn +:+ ".ys") ys_text None])
    /\ fst (run (build_io_constraints self) w) = Py.Ok (bn +:+ ".pdc", "PDC")
    /\ Py.split " " yosys = ["yosys"; "-l"; bn +:+ ".rpt"; bn +:+ ".ys"]
    /\ arg_after "-json" (Py.split " " synth) = Some (bn +:+ ".json")
    /\ arg_after "-top" (Py.split " " synth) = Some bn
    /\ arg_after "--json" (Py.split " " nextpnr) = Some (bn +:+ ".json")
    /\ arg_after "--pdc" (Py.split " " nextpnr) = Some (bn +:+ ".pdc")
    /\ arg_after "--fasm" (Py.split " " nextpnr) = Some (bn +:+ ".fasm")
    /\ Py.split " " pack = ["prjoxide"; "pack"; bn +:+ ".fasm"; bn +:+ ".bit"].
Proof.
  intros self Hbn Hdev.
  destruct (yosys_import_sources_total self) as [rf Hrf].
  exists (synth_nexus_cmd self), (yosys_cmd self), (nextpnr_cmd self),
    (pack_cmd self).
  eexists.
  split. { rewrite (yosys_line_eq _ _ _ Hrf). apply synth_nexus_render. }
  split; [apply build_template_render|].
  split; [apply (build_project_run w self rf eq_refl Hrf)|].
  split; [reflexivity|].
  assert (Hs : Py.split " " (synth_nexus_cmd self)
               = ["synth_nexus"; "-flatten"; nwl_arg self; abc_arg self;
                  "-json"; bn +:+ ".json"; "-top"; bn]).
  { apply split_join; [done|]. unfold nwl_arg, abc_arg, self.
    cbn [_nowidelut _abc9 build]. destruct nowidelut, abc9;
      space_free Hbn Hdev. }
  assert (Hn : exists rest,
             Py.split " " (nextpnr_cmd self)
             = "nextpnr-nexus" :: "--json" :: (bn +:+ ".json") :: "--pdc"
               :: (bn +:+ ".pdc") :: "--fasm" :: (bn +:+ ".fasm") :: rest).
  { eexists. apply split_join; [done|].
    unfold device_arg, timefail_arg, ignoreloops_arg, self.
    cbn [_timingstrict _ignoreloops _es_device _seed platform device build
         init].
    destruct timingstrict, ignoreloops, es_device; space_free Hbn Hdev. }
  destruct Hn as [rest Hn].
  split. { apply split_join; [done|]. space_free Hbn Hdev. }
  rewrite Hs, Hn. unfold nwl_arg, abc_arg, self. cbn [_nowidelut _abc9 build].
  split. { destruct nowidelut, abc9; repeat arg_step; reflexivity. }
  split. { destruct nowidelut, abc9; repeat arg_step; reflexivity. }
  split. { repeat arg_step. reflexivity. }
  split. { repeat arg_step. reflexivity. }
  split. { repeat arg_step. reflexivity. }
  apply split_join; [done|]. space_free Hbn Hdev.
Qed.

Lemma pipeline_hand_off_witness :
  Py.str_in_char " " "top" = false
  /\ Py.str_in_char " " (device sample_platform) = false
  /\ exists synth nextpnr,
       yosys_line (init sample_platform "top") synth_nexus_template
       = Py.Ok synth
       /\ build_line (init sample_platform "top") EmptyString nextpnr_template
          = Py.Ok (nextpnr +:+ EmptyString +:+ Py.nl)
       /\ arg_after "-json" (Py.split " " synth) = Some "top.json"
       /\ arg_after "--json" (Py.split " " nextpnr) = Some "top.json".
Proof.
  split; [reflexivity|]. split; [reflexivity|].
  destruct (pipeline_hand_off posix_host sample_platform "top" false false
              false false 1 false eq_refl eq_refl)
    as (synth & yosys & nextpnr & pack & text & H1 & H2 & _ & _ & _ & H3 & _
        & H4 & _).
  exists synth, nextpnr. split; [exact H1|]. split.
  - apply Forall2_cons_1 in H2 as [_ H2].
    apply Forall2_cons_1 in H2 as [H2 _].
    unfold build_line.
    pose proof (build_line_render (init sample_platform "top") EmptyString)
      as H5.
    apply Forall2_cons_1 in H5 as [_ H5].
    apply Forall2_cons_1 in H5 as [H5 _].
    pose proof (build_template_render (init sample_platform "top")
                  (fail_stmt (sys_platform posix_host))) as H6.
    apply Forall2_cons_1 in H6 as [_ H6].
    apply Forall2_cons_1 in H6 as [H6 _].
    assert (E : nextpnr = nextpnr_cmd (init sample_platform "top")).
    { change (build (init sample_platform "top") false false false false 1
                false) with (init sample_platform "top") in H2.
      congruence. }
    rewrite E. exact H5.
  - split; [exact H3 | exact H4].
Defined.

(* ===================================================================== *)
(** * Further properties: the lines of the driver script                  *)
(* ===================================================================== *)

(** Without a line feed in the build name and the device name there is none
    in a rendered command and its failure check. *)
Lemma cmds_one_line self p :
  Py.str_in_char "010" (_build_name self) = false ->
  Py.str_in_char "010" (device (platform self)) = false ->
  Forall (fun line => Py.str_in_char "010" line = false)
    [yosys_cmd self +:+ fail_stmt p;
     nextpnr_cmd self +:+ fail_stmt p;
     pack_cmd self +:+ fail_stmt p].
Proof.
  intros Hbn Hdev.
  assert (Hfail : Py.str_in_char "010" (fail_stmt p) = false).
  { unfold fail_stmt. by destruct (is_windows p). }
  assert (Hseed : Py.str_in_char "010" (Py.str (Py.VInt (_seed self)))
                  = false) by (by apply PyFacts.str_int_chars).
  assert (Hd : Py.str_in_char "010" (device_arg self) = false).
  { unfold device_arg. rewrite PyFacts.str_in_char_app, Hdev.
    by destruct (_es_device self). }
  assert (Ht : Py.str_in_char "010" (timefail_arg self) = false).
  { unfold timefail_arg. by destruct (_timingstrict self). }
  assert (Hi : Py.str_in_char "010" (ignoreloops_arg self) = false).
  { unfold ignoreloops_arg. by destruct (_ignoreloops self). }
  repeat apply Forall_cons_2; try apply Forall_nil_2;
    rewrite PyFacts.str_in_char_app, Hfail, orb_false_r;
    (apply PyFacts.str_in_char_join; [reflexivity|]);
    repeat apply Forall_cons_2; try apply Forall_nil_2;
    rewrite ?PyFacts.str_in_char_app, ?Hbn; first [ done | reflexivity ].
Qed.

(** X9. For a revision string, a build name and a device name without line
    feed, the driver script is, line by line: the header of the dialect
    ([# Autogenerated ...] and [set -e], or [@echo off], [rem Autogenerated
    ...] and an empty line), then the [yosys], the [nextpnr-nexus] and the
    [prjoxide pack] command in that order, each on one line with the
    failure check of the dialect, and a final line feed. *)
Theorem build_script_lines w pf bn nowidelut abc9 timingstrict ignoreloops seed
    es_device :
  let self :=
    build (init pf bn) nowidelut abc9 timingstrict ignoreloops seed es_device in
  let p := sys_platform w in
  let rev := get_litex_git_revision w in
  Py.str_in_char "010" bn = false ->
  Py.str_in_char "010" (device pf) = false ->
  Py.str_in_char "010" rev = false ->
  exists text,
    run (build_script self) w
    = (Py.Ok ("build_" +:+ bn +:+ script_ext p),
       [EvWrite ("build_" +:+ bn +:+ script_ext p) text (Some false)])
    /\ Py.split "010" text
       = (if is_windows p
          then ["@echo off"; "rem Autogenerated by LiteX / git: " +:+ rev;
                EmptyString]
          else ["# Autogenerated by LiteX / git: " +:+ rev; "set -e"])
         ++ [yosys_cmd self +:+ fail_stmt p;
             nextpnr_cmd self +:+ fail_stmt p;
             pack_cmd self +:+ fail_stmt p;
             EmptyString].
Proof.
  intros self p rev Hbn Hdev Hrev.
  eexists. split; [apply (build_script_run w self eq_refl)|].
  pose proof (cmds_one_line self p Hbn Hdev) as H.
  rewrite !Forall_cons in H. destruct H as (Hy & Hn & Hp & _).
  fold p. fold rev.
  remember (yosys_cmd self +:+ fail_stmt p) as Y eqn:EY.
  remember (nextpnr_cmd self +:+ fail_stmt p) as N eqn:EN.
  remember (pack_cmd self +:+ fail_stmt p) as P eqn:EP.
  assert (Hbody : (yosys_cmd self +:+ fail_stmt p +:+ Py.nl) +:+
                  (nextpnr_cmd self +:+ fail_stmt p +:+ Py.nl) +:+
                  (pack_cmd self +:+ fail_stmt p +:+ Py.nl)
                  = Y +:+ Py.nl +:+ (N +:+ Py.nl +:+ (P +:+ Py.nl +:+ EmptyString))).
  { subst Y N P. by rewrite !PyFacts.app_assoc, PyFacts.app_nil_r. }
  rewrite Hbody.
  assert (Hlines : Py.split "010"
                     (Y +:+ Py.nl +:+ (N +:+ Py.nl +:+
                        (P +:+ Py.nl +:+ EmptyString)))
                   = [Y; N; P; EmptyString]).
  { by rewrite !PyFacts.split_first_line by done. }
  unfold script_header. destruct (is_windows p).
  - assert (E : ("@echo off" +:+ Py.nl +:+
                 "rem Autogenerated by LiteX / git: " +:+ rev +:+ Py.nl
                 +:+ Py.nl) +:+
                (Y +:+ Py.nl +:+ (N +:+ Py.nl +:+ (P +:+ Py.nl +:+ EmptyString)))
                = "@echo off" +:+ Py.nl +:+
                  (("rem Autogenerated by LiteX / git: " +:+ rev) +:+ Py.nl
                   +:+ (EmptyString +:+ Py.nl +:+
                        (Y +:+ Py.nl +:+
                          (N +:+ Py.nl +:+ (P +:+ Py.nl +:+ EmptyString)))))).
    { by rewrite !PyFacts.app_assoc. }
    rewrite E.
    rewrite PyFacts.split_first_line by done.
    rewrite PyFacts.split_first_line
      by (by rewrite PyFacts.str_in_char_app, Hrev).
    rewrite PyFacts.split_first_line by done.
    by rewrite Hlines.
  - assert (E : ("# Autogenerated by LiteX / git: " +:+ rev +:+ Py.nl +:+
                 "set -e" +:+ Py.nl) +:+
                (Y +:+ Py.nl +:+ (N +:+ Py.nl +:+ (P +:+ Py.nl +:+ EmptyString)))
                = ("# Autogenerated by LiteX / git: " +:+ rev) +:+ Py.nl +:+
                  ("set -e" +:+ Py.nl +:+
                   (Y +:+ Py.nl +:+
                     (N +:+ Py.nl +:+ (P +:+ Py.nl +:+ EmptyString))))).
    { by rewrite !PyFacts.app_assoc. }
    rewrite E.
    rewrite PyFacts.split_first_line
      by (by rewrite PyFacts.str_in_char_app, Hrev).
    rewrite PyFacts.split_first_line by done.
    by rewrite Hlines.
Qed.

Lemma build_script_lines_witness :
  Py.str_in_char "010" "top" = false
  /\ Py.str_in_char "010" (device sample_platform) = false
  /\ Py.str_in_char "010" (get_litex_git_revision windows_host) = false
  /\ exists text,
       run (build_script (init sample_platform "top")) windows_host
       = (Py.Ok "build_top.bat",
          [EvWrite "build_top.bat" text (Some false)])
       /\ Py.split "010" text
          = ["@echo off";
             "rem Autogenerated by LiteX / git: 0a1b2c3";
             EmptyString;
             "yosys -l top.rpt top.ys || exit /b";
             "nextpnr-nexus --json top.json --pdc top.pdc --fasm top.fasm     --device LIFCL-40-9BG400C --timing-allow-fail  --seed 1 || exit /b";
             "prjoxide pack top.fasm top.bit || exit /b";
             EmptyString].
Proof.
  split; [reflexivity|]. split; [reflexivity|]. split; [reflexivity|].
  destruct (build_script_lines windows_host sample_platform "top" false false
              false false 1 false eq_refl eq_refl eq_refl) as (text & H1 & H2).
  exists text. split; [exact H1 | exact H2].
Defined.

(* ===================================================================== *)
(** * Further properties: the command-line options                        *)
(* ===================================================================== *)

Ltac lookup_args :=
  repeat first
    [ rewrite lookup_insert_eq
    | rewrite lookup_insert_ne by discriminate ].

(** X10. A namespace that holds the six options of [oxide_args], among
    whatever other attributes, is turned by [oxide_argdict] into keyword
    arguments that [build] accepts in full: each option lands in the field
    of its name, and nothing is left over for the generic build. *)
Theorem oxide_argdict_build self base nowidelut abc9 timingstrict ignoreloops
    seed es_device :
  let args :=
    <["yosys_nowidelut" := ABool nowidelut]>
    (<["yosys_abc9" := ABool abc9]>
    (<["nextpnr_timingstrict" := ABool timingstrict]>
    (<["nextpnr_ignoreloops" := ABool ignoreloops]>
    (<["nextpnr_seed" := AInt seed]>
    (<["nexus_es_device" := ABool es_device]> base))))) in
  exists kw,
    oxide_argdict args = Some kw
    /\ build_call self kw
       = Some (build self nowidelut abc9 timingstrict ignoreloops seed
                 es_device, ∅).
Proof.
  intros args. unfold oxide_argdict, args. lookup_args.
  eexists. split; [reflexivity|].
  unfold build_call, option_keys. lookup_args. cbn [truthy fold_right].
  reflexivity.
Qed.



(** X12. [oxide_argdict] succeeds exactly on the namespaces that have all
    six attributes: one missing attribute makes it fail, whatever else the
    namespace holds. *)
Theorem oxide_argdict_defined (args : gmap string argval) :
  is_Some (oxide_argdict args)
  <-> Forall (fun d => is_Some (args !! d)) option_dests.
Proof.
  unfold oxide_argdict, option_dests. rewrite !Forall_cons.
  destruct (args !! "yosys_nowidelut"), (args !! "yosys_abc9"),
    (args !! "nextpnr_timingstrict"), (args !! "nextpnr_ignoreloops"),
    (args !! "nextpnr_seed"), (args !! "nexus_es_device");
    split; intros H;
    repeat match goal with
    | H : _ /\ _ |- _ => destruct H
    | H : is_Some None |- _ => by destruct H
    | |- _ /\ _ => split
    | |- is_Some (Some _) => by eexists
    | |- Forall _ [] => constructor
    end.
Qed.

Lemma oxide_argdict_defined_witness :
  Forall (fun d => is_Some (sample_namespace !! d)) option_dests
  /\ is_Some (oxide_argdict sample_namespace)
  /\ ~ is_Some (oxide_argdict (delete "nextpnr_seed" sample_namespace)).
Proof.
  assert (H : Forall (fun d => is_Some (sample_namespace !! d)) option_dests).
  { repeat apply Forall_cons_2; try apply Forall_nil_2; by eexists. }
  split; [exact H|]. split.
  - exact (proj2 (oxide_argdict_defined sample_namespace) H).
  - intros Hs.
    pose proof (proj1 (oxide_argdict_defined
                         (delete "nextpnr_seed" sample_namespace)) Hs) as Hf.
    unfold option_dests in Hf. rewrite !Forall_cons in Hf.
    destruct Hf as (_ & _ & _ & _ & Hseed & _).
    destruct Hseed as [v Hv]. vm_compute in Hv. discriminate Hv.
Defined.

(* ===================================================================== *)
(** * The option flags among the arguments of the rendered commands       *)
(* ===================================================================== *)

(** Splitting distributes over a separator. *)
Lemma split_go_app_sep sep a b cur :
  Py.split_go sep (a +:+ String sep b) cur
  = Py.split_go sep a cur ++ Py.split_go sep b EmptyString.
Proof.
  revert cur. induction a as [|x a IH]; intros cur.
  - rewrite PyFacts.app_nil_l. cbn [Py.split_go]. by rewrite Ascii.eqb_refl.
  - rewrite PyFacts.app_cons. cbn [Py.split_go].
    destruct (Ascii.eqb x sep); [|apply IH].
    by rewrite IH.
Qed.

Lemma arg_count_sep a b flag :
  arg_count (a +:+ String " " b) flag
  = (arg_count a flag + arg_count b flag)%nat.
Proof.
  unfold arg_count, Py.split. by rewrite split_go_app_sep, count_occ_app.
Qed.

Lemma arg_count_join ls flag :
  ls <> [] ->
  arg_count (Py.join " " ls) flag
  = list_sum (map (fun t => arg_count t flag) ls).
Proof.
  intros Hne. unfold Py.join. induction ls as [|x [|y ls] IH]; [done| |].
  - simpl. lia.
  - change (String.concat " " (x :: y :: ls))
      with (x +:+ String " " (String.concat " " (y :: ls))).
    rewrite arg_count_sep, IH by done. reflexivity.
Qed.

(** A word without blank is one argument. *)
Lemma arg_count_word t flag :
  Py.str_in_char " " t = false -> t <> flag -> arg_count t flag = 0%nat.
Proof.
  intros Ht Hne. unfold arg_count, Py.split.
  rewrite (split_go_nosep _ _ _ Ht), PyFacts.app_nil_l. cbn [count_occ].
  by destruct (string_dec t flag).
Qed.

Ltac word_is_not_flag Hbn Hdev :=
  apply arg_count_word;
  [ rewrite ?PyFacts.str_in_char_app, ?Hbn, ?Hdev; reflexivity
  | first [ assumption
          | let H := fresh in intros H; last_chars_differ H ] ].

(** C4. For every combination of the options and every build name that is
    one word (no blank, and not itself one of the two flags), the
    [synth_nexus] line, the last line of the synthesis script that
    [build_project] writes, has the argument [-nowidelut] exactly once when
    [nowidelut] is set and not at all otherwise, and the argument [-abc9]
    exactly once when [abc9] is set and not at all otherwise. *)
Theorem synth_nexus_flag_arguments w pf bn nowidelut abc9 timingstrict
    ignoreloops seed es_device :
  let self :=
    build (init pf bn) nowidelut abc9 timingstrict ignoreloops seed es_device in
  Py.str_in_char " " bn = false ->
  bn <> "-nowidelut" -> bn <> "-abc9" ->
  last (yosys_template self) = Some synth_nexus_template
  /\ yosys_line self synth_nexus_template = Py.Ok (synth_nexus_cmd self)
  /\ (exists rf,
        run (build_project self) w
        = (Py.Ok tt,
           [EvWrite (bn +:+ ".ys")
              (Py.join Py.nl
                 ["verilog_defaults -push";
                  "verilog_defaults -add -defer";
                  rf;
                  "verilog_defaults -pop";
                  "attrmap -tocase keep -imap keep=" +:+ Py.dquote +:+ "true"
                    +:+ Py.dquote +:+ " keep=1 -imap keep=" +:+ Py.dquote
                    +:+ "false" +:+ Py.dquote +:+ " keep=0 -remove keep=0";
                  synth_nexus_cmd self])
              None]))
  /\ Py.split " " (synth_nexus_cmd self)
     = ["synth_nexus"; "-flatten";
        (if nowidelut then "-nowidelut" else EmptyString);
        (if abc9 then "-abc9" else EmptyString);
        "-json"; bn +:+ ".json"; "-top"; bn]
  /\ arg_count (synth_nexus_cmd self) "-nowidelut"
     = (if nowidelut then 1 else 0)%nat
  /\ arg_count (synth_nexus_cmd self) "-abc9" = (if abc9 then 1 else 0)%nat.
Proof.
  intros self Hbn Hn Ha.
  destruct (yosys_import_sources_total self) as [rf Hrf].
  split; [reflexivity|]. split.
  { rewrite (yosys_line_eq _ _ _ Hrf). apply synth_nexus_render. }
  split. { exists rf. apply (build_project_run w self rf eq_refl Hrf). }
  split.
  { apply split_join; [done|]. unfold nwl_arg, abc_arg, self.
    cbn [_nowidelut _abc9 _build_name build init].
    destruct nowidelut, abc9; space_free Hbn Hbn. }
  unfold synth_nexus_cmd, nwl_arg, abc_arg, self.
  cbn [_nowidelut _abc9 _build_name build init].
  rewrite !arg_count_join by done. cbn [map list_sum].
  rewrite !(arg_count_word (bn +:+ ".json")), !(arg_count_word bn);
    try assumption;
    try (rewrite ?PyFacts.str_in_char_app, ?Hbn; reflexivity);
    try (let H := fresh in intros H; last_chars_differ H).
  destruct nowidelut, abc9; split; reflexivity.
Qed.

Lemma synth_nexus_flag_arguments_witness :
  Py.str_in_char " " "top" = false
  /\ "top" <> "-nowidelut" /\ "top" <> "-abc9"
  /\ arg_count
       (synth_nexus_cmd
          (build (init sample_platform "top") true true false false 1 false))
       "-nowidelut" = 1%nat
  /\ arg_count
       (synth_nexus_cmd
          (build (init sample_platform "top") true false false false 1 false))
       "-abc9" = 0%nat.
Proof.
  assert (H1 : "top" <> "-nowidelut") by discriminate.
  assert (H2 : "top" <> "-abc9") by discriminate.
  split; [reflexivity|]. split; [exact H1|]. split; [exact H2|]. split.
  - exact (proj1 (proj2 (proj2 (proj2 (proj2
             (synth_nexus_flag_arguments posix_host sample_platform "top" true
                true false false 1 false eq_refl H1 H2)))))).
  - exact (proj2 (proj2 (proj2 (proj2 (proj2
             (synth_nexus_flag_arguments posix_host sample_platform "top" true
                false false false 1 false eq_refl H1 H2)))))).
Defined.

(** Behind the seed come the failure check and the line feed: no flag. *)
Lemma seed_tail_arg_count z p flag c :
  Py.str_in_char c flag = true -> Py.is_digit c = false -> c <> "-"%char ->
  Py.last_char flag <> Some "010"%char ->
  arg_count ("|| exit /b" +:+ Py.nl) flag = 0%nat ->
  arg_count (Py.str (Py.VInt z) +:+ fail_stmt p +:+ Py.nl) flag = 0%nat.
Proof.
  intros Hc Hd Hm Hl Hf.
  assert (Hblank : Py.str_in_char " " (Py.str (Py.VInt z)) = false)
    by (by apply PyFacts.str_int_chars).
  assert (Hseed : Py.str (Py.VInt z) <> flag).
  { intros E. pose proof (PyFacts.str_int_chars c z Hd Hm) as H.
    rewrite E in H. congruence. }
  unfold fail_stmt. destruct (is_windows p).
  - change (Py.str (Py.VInt z) +:+ " || exit /b" +:+ Py.nl)
      with (Py.str (Py.VInt z) +:+ String " " ("|| exit /b" +:+ Py.nl)).
    by rewrite arg_count_sep, Hf, (arg_count_word _ _ Hblank Hseed).
  - change (Py.str (Py.VInt z) +:+ EmptyString +:+ Py.nl)
      with (Py.str (Py.VInt z) +:+ Py.nl).
    apply arg_count_word.
    + by rewrite PyFacts.str_in_char_app, Hblank.
    + intros E. apply Hl. rewrite <- E.
      by rewrite PyFacts.last_char_app.
Qed.

(** C5. For every combination of the options, on either dialect, and every
    build name and device name that are one word each (no blank; the
    device name not itself one of the two flags), the rendered
    [nextpnr-nexus] line of the driver script that [build_script] writes
    has the argument [--timing-allow-fail] when [timingstrict] is off and
    not when it is on, and the argument [--ignore-loops] exactly when
    [ignoreloops] is on; each at most once. *)
Theorem nextpnr_flag_arguments w pf bn nowidelut abc9 timingstrict ignoreloops
    seed es_device :
  let self :=
    build (init pf bn) nowidelut abc9 timingstrict ignoreloops seed es_device in
  let p := sys_platform w in
  let line := nextpnr_cmd self +:+ fail_stmt p +:+ Py.nl in
  Py.str_in_char " " bn = false ->
  Py.str_in_char " " (device pf) = false ->
  device pf <> "--timing-allow-fail" -> device pf <> "--ignore-loops" ->
  In nextpnr_template (build_template self)
  /\ build_line self (fail_stmt p) nextpnr_template = Py.Ok line
  /\ run (build_script self) w
     = (Py.Ok ("build_" +:+ bn +:+ script_ext p),
        [EvWrite ("build_" +:+ bn +:+ script_ext p)
           (script_header p (get_litex_git_revision w) +:+
            (yosys_cmd self +:+ fail_stmt p +:+ Py.nl) +:+
            line +:+
            (pack_cmd self +:+ fail_stmt p +:+ Py.nl))
           (Some false)])
  /\ arg_count line "--timing-allow-fail"
     = (if timingstrict then 0 else 1)%nat
  /\ arg_count line "--ignore-loops" = (if ignoreloops then 1 else 0)%nat.
Proof.
  intros self p line Hbn Hdev Hdt Hdi.
  split; [right; left; reflexivity|]. split.
  { pose proof (build_line_render self (fail_stmt p)) as H.
    apply Forall2_cons_1 in H as [_ H]. by apply Forall2_cons_1 in H as [H _]. }
  split; [apply (build_script_run w self eq_refl)|].
  assert (Hline : line
            = Py.join " "
                ["nextpnr-nexus"; "--json"; bn +:+ ".json"; "--pdc";
                 bn +:+ ".pdc"; "--fasm"; bn +:+ ".fasm";
                 EmptyString; EmptyString; EmptyString; EmptyString;
                 "--device"; device_arg self; timefail_arg self;
                 ignoreloops_arg self; "--seed"]
              +:+ String " "
                    (Py.str (Py.VInt seed) +:+ fail_stmt p +:+ Py.nl)).
  { unfold line, nextpnr_cmd.
    change ["nextpnr-nexus"; "--json"; _build_name self +:+ ".json"; "--pdc";
            _build_name self +:+ ".pdc"; "--fasm";
            _build_name self +:+ ".fasm";
            EmptyString; EmptyString; EmptyString; EmptyString; "--device";
            device_arg self; timefail_arg self; ignoreloops_arg self; "--seed";
            Py.str (Py.VInt (_seed self))]
      with (["nextpnr-nexus"; "--json"; bn +:+ ".json"; "--pdc";
             bn +:+ ".pdc"; "--fasm"; bn +:+ ".fasm";
             EmptyString; EmptyString; EmptyString; EmptyString; "--device";
             device_arg self; timefail_arg self; ignoreloops_arg self;
             "--seed"] ++ [Py.str (Py.VInt seed)]).
    rewrite join_snoc by done. by rewrite !PyFacts.app_assoc. }
  assert (Hd : forall flag,
            device pf <> flag -> Py.last_char flag <> Some "S"%char ->
            arg_count (device_arg self) flag = 0%nat).
  { intros flag Hne Hl. unfold device_arg, self.
    cbn [_es_device platform device build init]. destruct es_device.
    - apply arg_count_word.
      + by rewrite PyFacts.str_in_char_app, Hdev.
      + intros E. apply Hl. rewrite <- E. by rewrite PyFacts.last_char_app.
    - rewrite PyFacts.app_nil_r. by apply arg_count_word. }
  rewrite Hline, !arg_count_sep.
  rewrite (seed_tail_arg_count seed p "--timing-allow-fail" "t") by done.
  rewrite (seed_tail_arg_count seed p "--ignore-loops" "i") by done.
  rewrite !arg_count_join by done. cbn [map list_sum].
  rewrite !(Hd _) by done.
  rewrite !(arg_count_word (bn +:+ ".json")), !(arg_count_word (bn +:+ ".pdc")),
    !(arg_count_word (bn +:+ ".fasm"));
    try (rewrite ?PyFacts.str_in_char_app, ?Hbn; reflexivity);
    try (let H := fresh in intros H; last_chars_differ H).
  unfold timefail_arg, ignoreloops_arg, self.
  cbn [_timingstrict _ignoreloops build].
  destruct timingstrict, ignoreloops; split; reflexivity.
Qed.

Lemma nextpnr_flag_arguments_witness :
  Py.str_in_char " " "top" = false
  /\ Py.str_in_char " " (device sample_platform) = false
  /\ device sample_platform <> "--timing-allow-fail"
  /\ device sample_platform <> "--ignore-loops"
  /\ arg_count
       (nextpnr_cmd
          (build (init sample_platform "top") false false true true 7 false)
        +:+ fail_stmt "win32" +:+ Py.nl) "--timing-allow-fail" = 0%nat
  /\ arg_count
       (nextpnr_cmd
          (build (init sample_platform "top") false false true true 7 false)
        +:+ fail_stmt "win32" +:+ Py.nl) "--ignore-loops" = 1%nat.
Proof.
  assert (H1 : device sample_platform <> "--timing-allow-fail") by discriminate.
  assert (H2 : device sample_platform <> "--ignore-loops") by discriminate.
  split; [reflexivity|]. split; [reflexivity|].
  split; [exact H1|]. split; [exact H2|].
  exact (proj2 (proj2 (proj2
           (nextpnr_flag_arguments windows_host sample_platform "top" false
              false true true 7 false eq_refl eq_refl H1 H2)))).
Defined.

(* ===================================================================== *)
(** * The files a build produces                                          *)
(* ===================================================================== *)

Lemma chomp_cons c r :
  r <> EmptyString -> chomp (String c r) = String c (chomp r).
Proof. by destruct r. Qed.

Lemma chomp_line a : chomp (a +:+ Py.nl) = a.
Proof.
  induction a as [|c a IH]; [reflexivity|].
  rewrite PyFacts.app_cons, chomp_cons, IH; [done|]. by destruct a.
Qed.

(** The first word of a joined command is its first token. *)
Lemma split_join_cons sep t rest :
  Py.str_in_char sep t = false -> rest <> [] ->
  Py.split sep (Py.join (String sep EmptyString) (t :: rest))
  = t :: Py.split sep (Py.join (String sep EmptyString) rest).
Proof.
  intros Ht Hne. destruct rest as [|u rest]; [done|]. unfold Py.split, Py.join.
  change (String.concat (String sep EmptyString) (t :: u :: rest))
    with (t +:+ String sep (String.concat (String sep EmptyString) (u :: rest))).
  by rewrite (PyFacts.split_go_sep _ _ _ _ Ht).
Qed.

(** The first field of a split starts with what has been read of it. *)
Lemma split_go_head sep s cur :
  exists t r, Py.split_go sep s cur = (cur +:+ t) :: r.
Proof.
  revert cur. induction s as [|x s IH]; intros cur.
  - exists EmptyString, []. by rewrite PyFacts.app_nil_r.
  - cbn [Py.split_go]. destruct (Ascii.eqb x sep).
    + eexists EmptyString, _. by rewrite PyFacts.app_nil_r.
    + destruct (IH (Py.snoc cur x)) as (t & r & ->).
      exists (String x t), r. unfold Py.snoc. by rewrite PyFacts.app_assoc.
Qed.

(** A read directive is no command of the tools above. *)
Lemma command_outputs_read s : command_outputs ("read_" +:+ s) = [].
Proof.
  unfold command_outputs, Py.split.
  change ("read_" +:+ s) with (String "r" ("ead_" +:+ s)).
  cbn [Py.split_go].
  change (Ascii.eqb "r" " ") with false. cbv iota.
  destruct (split_go_head " " ("ead_" +:+ s) (Py.snoc EmptyString "r"))
    as (t & r & ->).
  reflexivity.
Qed.

(** The text of the imported sources is no such command either. *)
Lemma import_sources_outputs self rf :
  _yosys_import_sources self = Py.Ok rf -> command_outputs rf = [].
Proof.
  rewrite yosys_import_sources_closed. intros [= <-].
  destruct (sources (platform self)) as [|sf srcs]; [reflexivity|].
  cbn [map]. unfold Py.join.
  destruct (map _ srcs) as [|d ds].
  - cbn [String.concat]. apply command_outputs_read.
  - match goal with
    | |- command_outputs (String.concat ?sep (?x :: d :: ds)) = _ =>
        change (String.concat sep (x :: d :: ds))
          with (x +:+ sep +:+ String.concat sep (d :: ds))
    end.
    rewrite !PyFacts.app_assoc. apply command_outputs_read.
Qed.

(** The failure check adds arguments behind those of the command. *)
Lemma split_fail_stmt cmd p :
  exists tail,
    Py.split " " (chomp (cmd +:+ fail_stmt p +:+ Py.nl))
    = Py.split " " cmd ++ tail.
Proof.
  rewrite <- PyFacts.app_assoc, chomp_line. unfold fail_stmt.
  destruct (is_windows p).
  - eexists. unfold Py.split.
    change (cmd +:+ " || exit /b") with (cmd +:+ String " " "|| exit /b").
    by rewrite split_go_app_sep.
  - exists []. by rewrite PyFacts.app_nil_r, app_nil_r.
Qed.

Ltac one_word Hbn :=
  rewrite ?PyFacts.str_in_char_app, ?Hbn; reflexivity.

(** Splits the first token off a joined command. *)
Ltac first_word Hbn :=
  rewrite split_join_cons
    by first [ done | one_word Hbn
             | match goal with
               | |- context [if ?b then _ else _] => destruct b; reflexivity
               end ].

(** Decides the comparisons of the tool names. *)
Ltac tool_names :=
  repeat match goal with
  | |- context [String.eqb ?a ?b] =>
      let v := eval vm_compute in (String.eqb a b) in
      lazymatch v with
      | true => change (String.eqb a b) with true
      | false => change (String.eqb a b) with false
      end
  end; cbv iota.

Lemma synth_nexus_outputs self :
  Py.str_in_char " " (_build_name self) = false ->
  command_outputs (synth_nexus_cmd self) = [_build_name self +:+ ".json"].
Proof.
  intros Hbn. unfold command_outputs, synth_nexus_cmd, nwl_arg, abc_arg.
  do 6 first_word Hbn. tool_names.
  destruct (_nowidelut self), (_abc9 self); repeat arg_step; reflexivity.
Qed.

Lemma yosys_outputs self p :
  Py.str_in_char " " (_build_name self) = false ->
  command_outputs (chomp (yosys_cmd self +:+ fail_stmt p +:+ Py.nl))
  = [_build_name self +:+ ".rpt"].
Proof.
  intros Hbn. unfold command_outputs.
  destruct (split_fail_stmt (yosys_cmd self) p) as [tail ->].
  unfold yosys_cmd. do 3 first_word Hbn. cbn [app]. tool_names.
  by rewrite arg_after_hit.
Qed.

Lemma nextpnr_outputs self p :
  Py.str_in_char " " (_build_name self) = false ->
  command_outputs (chomp (nextpnr_cmd self +:+ fail_stmt p +:+ Py.nl))
  = [_build_name self +:+ ".fasm"].
Proof.
  intros Hbn. unfold command_outputs.
  destruct (split_fail_stmt (nextpnr_cmd self) p) as [tail ->].
  unfold nextpnr_cmd. do 7 first_word Hbn. cbn [app]. tool_names.
  repeat arg_step. reflexivity.
Qed.

Lemma pack_outputs self p :
  Py.str_in_char " " (_build_name self) = false ->
  command_outputs (chomp (pack_cmd self +:+ fail_stmt p +:+ Py.nl))
  = [_build_name self +:+ ".bit"].
Proof.
  intros Hbn. unfold command_outputs.
  destruct (split_fail_stmt (pack_cmd self) p) as [tail ->].
  unfold pack_cmd. do 3 first_word Hbn.
  assert (Hlast : exists r,
            Py.split " " (Py.join " " [_build_name self +:+ ".bit"])
            = (_build_name self +:+ ".bit") :: r).
  { eexists. apply split_join; [done|].
    apply Forall_cons_2; [one_word Hbn | apply Forall_nil_2]. }
  destruct Hlast as [r ->]. cbn [app]. tool_names. reflexivity.
Qed.

(** For a build name without blank, the produced paths are the seven
    closed-form ones. *)
Lemma produced_paths_closed w self :
  yosys_template self = _yosys_template ->
  build_template self = _build_template ->
  Py.str_in_char " " (_build_name self) = false ->
  produced_paths w self = output_paths (sys_platform w) self.
Proof.
  intros Ht Hb Hbn. unfold produced_paths.
  destruct (yosys_import_sources_total self) as [rf Hrf].
  rewrite (build_project_run w self rf Ht Hrf), (build_script_run w self Hb).
  rewrite Ht, Hb.
  pose proof (yosys_template_render self rf) as Hy.
  pose proof (build_line_render self (fail_stmt (sys_platform w))) as Hl.
  unfold _yosys_template, _build_template in *.
  repeat match goal with
  | H : Forall2 _ (_ :: _) _ |- _ => apply Forall2_cons_1 in H as [? H]
  end.
  cbn [flat_map].
  repeat match goal with
  | H : Py.format ?l _ _ = _ |- context [yosys_line self ?l] =>
      rewrite (yosys_line_eq self l rf Hrf), H
  | H : build_line self _ ?s = _ |- context [build_line self _ ?s] =>
      rewrite H
  end.
  rewrite (import_sources_outputs self rf Hrf), (synth_nexus_outputs self Hbn),
    (yosys_outputs self _ Hbn), (nextpnr_outputs self _ Hbn),
    (pack_outputs self _ Hbn).
  reflexivity.
Qed.

(** C8. For a build name that is one word (no blank), the files a build
    produces are exactly seven: the synthesis script that [build_project]
    writes, the constraint file that [build_io_constraints] returns, the
    driver script that [build_script] writes, and the netlist, the report,
    the [.fasm] file and the bitstream that the rendered commands name as
    outputs of the tools. Each path is the build name with a fixed prefix
    and extension, whatever the platform, the sources and the options are
    (only the extension of the driver script follows the dialect); so two
    builds of one name produce the same paths, and two builds of different
    names have no path in common. *)
Theorem produced_paths_disjoint w1 w2 pf1 pf2 bn1 bn2
    nowidelut1 abc91 timingstrict1 ignoreloops1 seed1 es_device1
    nowidelut2 abc92 timingstrict2 ignoreloops2 seed2 es_device2 :
  let self1 :=
    build (init pf1 bn1) nowidelut1 abc91 timingstrict1 ignoreloops1 seed1
      es_device1 in
  let self2 :=
    build (init pf2 bn2) nowidelut2 abc92 timingstrict2 ignoreloops2 seed2
      es_device2 in
  let paths := fun (w : world) (bn : string) =>
    [bn +:+ ".ys"; bn +:+ ".pdc";
     "build_" +:+ bn +:+ script_ext (sys_platform w);
     bn +:+ ".json"; bn +:+ ".rpt"; bn +:+ ".fasm"; bn +:+ ".bit"] in
  Py.str_in_char " " bn1 = false ->
  Py.str_in_char " " bn2 = false ->
  produced_paths w1 self1 = paths w1 bn1
  /\ produced_paths w2 self2 = paths w2 bn2
  /\ (bn1 = bn2 ->
      script_ext (sys_platform w1) = script_ext (sys_platform w2) ->
      produced_paths w1 self1 = produced_paths w2 self2)
  /\ (bn1 <> bn2 ->
      forall path,
        In path (produced_paths w1 self1) ->
        ~ In path (produced_paths w2 self2)).
Proof.
  intros self1 self2 paths Hbn1 Hbn2.
  pose proof (produced_paths_closed w1 self1 eq_refl eq_refl Hbn1) as H1.
  pose proof (produced_paths_closed w2 self2 eq_refl eq_refl Hbn2) as H2.
  pose proof (output_paths_by_name (sys_platform w1) (sys_platform w2)
                self1 self2) as [Hsame Hdiff].
  rewrite H1, H2.
  split; [reflexivity|]. split; [reflexivity|]. split.
  - intros Hn He. by apply Hsame.
  - intros Hne. by apply Hdiff.
Qed.

Lemma produced_paths_disjoint_witness :
  Py.str_in_char " " "top" = false
  /\ Py.str_in_char " " "soc" = false
  /\ "top" <> "soc"
  /\ produced_paths posix_host
       (build (init sample_platform "top") false false false false 1 false)
     = ["top.ys"; "top.pdc"; "build_top.sh"; "top.json"; "top.rpt";
        "top.fasm"; "top.bit"]
  /\ In "top.bit"
       (produced_paths posix_host
          (build (init sample_platform "top") false false false false 1 false))
  /\ ~ In "top.bit"
        (produced_paths windows_host
           (build (init vhdl_platform "soc") true true true true 7 true)).
Proof.
  assert (Hne : "top" <> "soc") by discriminate.
  split; [reflexivity|]. split; [reflexivity|]. split; [exact Hne|].
  destruct (produced_paths_disjoint posix_host windows_host sample_platform
              vhdl_platform "top" "soc" false false false false 1 false
              true true true true 7 true eq_refl eq_refl)
    as (Hp & _ & _ & Hd).
  assert (Hin : In "top.bit"
                  (produced_paths posix_host
                     (build (init sample_platform "top") false false false
                        false 1 false))).
  { rewrite Hp. do 6 right. left. reflexivity. }
  split; [exact Hp|]. split; [exact Hin|]. exact (Hd Hne "top.bit" Hin).
Defined.
